(** * California housing dashboard: data preparation, filtering and KPI cards

    A shallow embedding of [california_dashboard.py].  The script is a
    straight-line Streamlit program; the parts that carry logic are

    - [load_data] (lines 10-19): three derived ratios, two binned columns
      and a two-valued age category;
    - the slider bounds and the multiselect options (lines 27-40);
    - the boolean-mask filter [filtered] (lines 43-48);
    - the three KPI cards (lines 53-56) and the latitude-bin bar chart
      input [lat_value] (lines 109-115);
    - the correlation matrix of the heatmap (lines 153-156).

    Columns hold binary64 numbers, so cells are primitive [float]s and
    every arithmetic operation and comparison below is the IEEE 754 one.
    A data frame is a list of rows; a column is the [map] of a field over
    that list.  The dataframe operations the script calls ([between],
    [isin], [&], boolean indexing, [min], [max], [mean], [cut], [unique])
    are written out after their documented behaviour. *)

From Stdlib Require Import String Ascii List ZArith Lia Bool Floats DecimalString.
From Stdlib Require Import Permutation DecimalN.
From Stdlib Require Uint63.
Import ListNotations.

Open Scope float_scope.

(** ** Python results *)

Inductive PyError : Type :=
| ValueError (msg : string)
| OverflowError (msg : string).

Inductive Res (A : Type) : Type :=
| Ok (a : A)
| Raise (e : PyError).

Arguments Ok {A} a.
Arguments Raise {A} e.

Definition bind {A B : Type} (m : Res A) (k : A -> Res B) : Res B :=
  match m with
  | Ok a => k a
  | Raise e => Raise e
  end.

Notation "x <- m ;; k" := (bind m (fun x => k))
  (at level 61, m at next level, right associativity).

(** ** Text cells *)

(** A cell of a text column: a string, or missing (NaN) when the file
    has nothing there. *)
Definition label : Type := option string.

(** The comparison of [isin] and [unique]: equal strings, or both
    missing. *)
Definition same_label (a b : label) : bool :=
  match a, b with
  | Some x, Some y => String.eqb x y
  | None, None => true
  | _, _ => false
  end.

(** Elementwise [==]: a missing cell is equal to nothing, not even to a
    missing one. *)
Definition label_equals (a b : label) : bool :=
  match a, b with
  | Some x, Some y => String.eqb x y
  | _, _ => false
  end.

(** ** Binary64 cells *)

(** [x != x]: the missing-value test of [isna] on a float column. *)
Definition isna (x : float) : bool := is_nan x.

Definition notna (x : float) : bool := negb (isna x).

(** An integer converted to binary64 (round to nearest even). *)
Definition float_of_Z (z : Z) : float :=
  SF2Prim (binary_normalize prec emax z 0 false).

Definition float_of_nat (n : nat) : float := float_of_Z (Z.of_nat n).

(** [math.floor] of a finite float as an exact integer. *)
Definition float_floor (x : float) : option Z :=
  match Prim2SF x with
  | S754_zero _ => Some 0%Z
  | S754_finite s m e =>
      let sm := if s then Z.neg m else Z.pos m in
      Some (if (0 <=? e)%Z then sm * 2 ^ e else sm / 2 ^ (- e))%Z
  | _ => None
  end.

(** [int(x)]: truncation toward zero; [ValueError] on NaN and
    [OverflowError] on an infinity. *)
Definition py_int (x : float) : Res Z :=
  match Prim2SF x with
  | S754_nan => Raise (ValueError "cannot convert float NaN to integer")
  | S754_infinity _ => Raise (OverflowError "cannot convert float infinity to integer")
  | S754_zero _ => Ok 0%Z
  | S754_finite s m e =>
      let a := (if (0 <=? e)%Z then Z.pos m * 2 ^ e else Z.pos m / 2 ^ (- e))%Z in
      Ok (if s then - a else a)%Z
  end.

(** ** numpy *)

Module np.

(** The order [searchsorted] and [sort] use on floats: NaN comes last. *)
Definition lt (a b : float) : bool := (a <? b) || (isna b && notna a).

(** [a.searchsorted(x, side='left')] on a sorted array: the insertion
    point a binary search finds is the first index whose element is not
    below [x]. *)
Fixpoint searchsorted (a : list float) (x : float) : nat :=
  match a with
  | [] => 0
  | b :: bs => if lt b x then S (searchsorted bs x) else 0
  end.

Definition set_last (y : list float) (v : float) : list float :=
  match y with
  | [] => []
  | _ :: _ => removelast y ++ [v]
  end.

(** [np.linspace(start, stop, num, endpoint=True)]. *)
Definition linspace (start stop : float) (num : nat) : list float :=
  let div := (num - 1)%nat in
  let delta := stop - start in
  let y := map float_of_nat (seq 0 num) in
  let y :=
    if (0 <? div)%nat then
      let step := delta / float_of_nat div in
      if step =? 0 then map (fun v => v / float_of_nat div * delta) y
      else map (fun v => v * step) y
    else map (fun v => v * delta) y in
  let y := map (fun v => v + start) y in
  if (1 <? num)%nat then set_last y stop else y.

End np.

(** ** pandas *)

Module pd.

(** [Series.min()] and [Series.max()] with the default [skipna=True]:
    NaN cells are skipped, an all-NaN (or empty) column gives NaN. *)
Definition min (s : list float) : float :=
  match filter notna s with
  | [] => nan
  | x :: xs => fold_left (fun acc y => if y <? acc then y else acc) xs x
  end.

Definition max (s : list float) : float :=
  match filter notna s with
  | [] => nan
  | x :: xs => fold_left (fun acc y => if acc <? y then y else acc) xs x
  end.

(** [Series.mean()] with [skipna=True]: the sum of the non-NaN cells over
    their count, NaN when there is none.  The library adds the cells
    pairwise (and with compensation inside a group mean); here they are
    added left to right, so where rounding depends on the order the last
    digits of a mean can differ from the library's.  The theorems below
    use only what does not depend on the order: a column without a
    present cell has mean NaN. *)
Definition mean (s : list float) : float :=
  match filter notna s with
  | [] => nan
  | v :: vs => fold_left PrimFloat.add (v :: vs) 0 / float_of_nat (length (v :: vs))
  end.

(** [Series.between(left, right)] with [inclusive='both']:
    [(s >= left) & (s <= right)]. *)
Definition between (s : list float) (left right : float) : list bool :=
  map (fun x => (left <=? x) && (x <=? right)) s.

(** [Series.isin(values)] on a column of labels; a missing cell is in
    [values] when [values] has a missing entry. *)
Definition isin (s : list label) (values : list label) : list bool :=
  map (fun x => existsb (same_label x) values) s.

(** Elementwise [&] of two aligned boolean columns. *)
Fixpoint mask_and (a b : list bool) : list bool :=
  match a, b with
  | x :: a', y :: b' => (x && y) :: mask_and a' b'
  | _, _ => []
  end.

(** [df[mask]]: the rows whose mask cell is [True], in frame order. *)
Fixpoint boolean_index {A : Type} (df : list A) (mask : list bool) : list A :=
  match df, mask with
  | r :: df', m :: mask' =>
      if m then r :: boolean_index df' mask' else boolean_index df' mask'
  | _, _ => []
  end.

(** [Series.unique()] on labels: distinct values in order of first
    appearance, the missing value (once) among them. *)
Fixpoint unique_from (seen : list label) (s : list label) : list label :=
  match s with
  | [] => []
  | x :: xs =>
      if existsb (same_label x) seen then unique_from seen xs
      else x :: unique_from (x :: seen) xs
  end.

Definition unique (s : list label) : list label := unique_from [] s.

(** Distinct bin edges, as the duplicate check of [cut] counts them
    (NaN equals NaN there). *)
Definition same_edge (a b : float) : bool := (a =? b) || (isna a && isna b).

Fixpoint unique_edges (bins : list float) : list float :=
  match bins with
  | [] => []
  | b :: bs =>
      if existsb (same_edge b) bs then unique_edges bs else b :: unique_edges bs
  end.

Fixpoint is_monotonic_increasing (bins : list float) : bool :=
  match bins with
  | a :: (b :: _) as rest => (a <=? b) && is_monotonic_increasing rest
  | _ => true
  end.

(** A categorical column: one code per row ([None] is the missing
    category) and the edges whose consecutive pairs are its ordered,
    right-closed interval categories. *)
Definition intervals (bins : list float) : list (float * float) :=
  combine bins (tl bins).

Record Categorical : Type := mkCategorical {
  codes : list (option nat);
  bins : list float
}.

Definition categories (c : Categorical) : list (float * float) :=
  intervals (bins c).

(** The code of one cell for right-closed bins: [ids] is the insertion
    point on the left; a cell at or below the first edge, above the last
    edge, or missing gets no category. *)
Definition cut_code (bins : list float) (x : float) : option nat :=
  let ids := np.searchsorted bins x in
  if isna x || (ids =? length bins)%nat || (ids =? 0)%nat then None
  else Some (ids - 1)%nat.

Definition bins_to_cuts (x : list float) (edges : list float) : Res Categorical :=
  if (length (unique_edges edges) <? length edges)%nat && negb (length edges =? 2)%nat
  then Raise (ValueError "Bin edges must be unique")
  else Ok {| codes := map (cut_code edges) x; bins := edges |}.

(** The edges of [cut(x, bins=nbins)] with [right=True]: [nbins + 1]
    equally spaced points from the smallest to the largest cell, the
    first one lowered by 0.1% of the range. *)
Definition nbins_to_bins (x : list float) (nbins : nat) : Res (list float) :=
  if (nbins <? 1)%nat then Raise (ValueError "`bins` should be a positive integer.")
  else
    match x with
    | [] => Raise (ValueError "Cannot cut empty array")
    | _ :: _ =>
        let mn := min x in
        let mx := max x in
        if is_infinity mn || is_infinity mx then
          Raise (ValueError "cannot specify integer `bins` when input data contains infinity")
        else if mn =? mx then
          let mn' := mn - (if negb (mn =? 0) then 0x1.0624dd2f1a9fcp-10 * abs mn
                           else 0x1.0624dd2f1a9fcp-10) in
          let mx' := mx + (if negb (mx =? 0) then 0x1.0624dd2f1a9fcp-10 * abs mx
                           else 0x1.0624dd2f1a9fcp-10) in
          Ok (np.linspace mn' mx' (nbins + 1))
        else
          let bins := np.linspace mn mx (nbins + 1) in
          let adj := (mx - mn) * 0x1.0624dd2f1a9fcp-10 in
          Ok (match bins with
              | [] => []
              | b0 :: rest => (b0 - adj) :: rest
              end)
    end.

(** [pd.cut(x, bins=nbins)] for an integer number of bins. *)
Definition cut_nbins (x : list float) (nbins : nat) : Res Categorical :=
  edges <- nbins_to_bins x nbins ;;
  bins_to_cuts x edges.

(** [pd.cut(x, bins=edges)] for a sequence of edges. *)
Definition cut (x : list float) (edges : list float) : Res Categorical :=
  if negb (is_monotonic_increasing edges)
  then Raise (ValueError "bins must increase monotonically.")
  else bins_to_cuts x edges.

End pd.

(** ** Python number formatting *)

Module fmt.

Definition digits (n : Z) : string := NilZero.string_of_uint (N.to_uint (Z.to_N n)).

(** Thousands separators, on the reversed digit list. *)
Fixpoint commas_rev (l : list ascii) : list ascii :=
  match l with
  | a :: b :: c :: (_ :: _) as rest => a :: b :: c :: ","%char :: commas_rev rest
  | _ => l
  end.

Definition group (s : string) : string :=
  string_of_list_ascii (rev (commas_rev (rev (list_ascii_of_string s)))).

Fixpoint zeros (n : nat) : string :=
  match n with
  | O => EmptyString
  | S n' => String "0"%char (zeros n')
  end.

Definition pad_left (p : nat) (s : string) : string :=
  (zeros (p - String.length s) ++ s)%string.

(** Nearest integer to [num / den], ties to even ([den > 0]). *)
Definition round_half_even (num den : Z) : Z :=
  let q := (num / den)%Z in
  let r := (num mod den)%Z in
  match (2 * r ?= den)%Z with
  | Lt => q
  | Gt => (q + 1)%Z
  | Eq => if Z.even q then q else (q + 1)%Z
  end.

(** The digits of a non-negative number scaled by [10^p]. *)
Definition fixed_digits (comma : bool) (p : nat) (scaled : Z) : string :=
  let unit := (10 ^ Z.of_nat p)%Z in
  let int_part := digits (scaled / unit) in
  let int_part := if comma then group int_part else int_part in
  match p with
  | O => int_part
  | S _ => (int_part ++ "." ++ pad_left p (digits (scaled mod unit)))%string
  end.

(** [format(x, ',.pf')] (with [comma]) or [format(x, '.pf')]: fixed-point
    notation of the exact binary value, correctly rounded; NaN and the
    infinities print as words. *)
Definition fixed (comma : bool) (p : nat) (x : float) : string :=
  match Prim2SF x with
  | S754_nan => "nan"
  | S754_infinity s => if s then "-inf" else "inf"
  | S754_zero s => ((if s then "-" else "") ++ fixed_digits comma p 0)%string
  | S754_finite s m e =>
      let scaled :=
        if (0 <=? e)%Z then (Z.pos m * 2 ^ e * 10 ^ Z.of_nat p)%Z
        else round_half_even (Z.pos m * 10 ^ Z.of_nat p) (2 ^ (- e)) in
      ((if s then "-" else "") ++ fixed_digits comma p scaled)%string
  end.

(** [format(n, ',')] for a length. *)
Definition int_comma (n : nat) : string := group (digits (Z.of_nat n)).

End fmt.

(** ** The data frame of the dashboard *)

(** One line of [california_house_price.csv]. *)
Record Row : Type := mkRow {
  longitude : float;
  latitude : float;
  housing_median_age : float;
  total_rooms : float;
  total_bedrooms : float;
  population : float;
  households : float;
  median_income : float;
  median_house_value : float;
  ocean_proximity : label
}.

(** A row of [housing]: the CSV cells and the six columns [load_data]
    adds.  [lat_bin] and [age_bin] are category codes. *)
Record HousingRow : Type := mkHousingRow {
  raw :> Row;
  rooms_per_household : float;
  bedrooms_per_room : float;
  population_per_household : float;
  lat_bin : option nat;
  age_bin : option nat;
  age_category : string
}.

(** The frame: its rows and the bin edges carried by the two categorical
    columns. *)
Record DataFrame : Type := mkDataFrame {
  rows : list HousingRow;
  lat_bin_edges : list float;
  age_bin_edges : list float
}.

(** The intervals between consecutive edges, which decide the codes.
    The interval labels the library attaches to the column show these
    end points rounded for display (three decimals by default); that
    rounding is not modelled. *)
Definition lat_bin_categories (df : DataFrame) : list (float * float) :=
  pd.intervals (lat_bin_edges df).

Definition age_bin_categories (df : DataFrame) : list (float * float) :=
  pd.intervals (age_bin_edges df).

(** [range(0, 55, 5)]. *)
Definition age_edges : list float :=
  map (fun k => float_of_nat (5 * k)) (seq 0 11).

Definition age_category_of (x : float) : string :=
  if x <? 20 then "New (<20)" else "Old (>=20)".

(** [load_data] (lines 10-19).  The column assignments are elementwise,
    so a row of the result is built from the same row of the input and
    from the edges of the two cuts. *)
Definition load_data (df : list Row) : Res DataFrame :=
  lat <- pd.cut_nbins (map latitude df) 5 ;;
  age <- pd.cut (map housing_median_age df) age_edges ;;
  Ok {| rows :=
          map (fun r =>
                 {| raw := r;
                    rooms_per_household := total_rooms r / households r;
                    bedrooms_per_room := total_bedrooms r / total_rooms r;
                    population_per_household := population r / households r;
                    lat_bin := pd.cut_code (pd.bins lat) (latitude r);
                    age_bin := pd.cut_code (pd.bins age) (housing_median_age r);
                    age_category := age_category_of (housing_median_age r) |}) df;
        lat_bin_edges := pd.bins lat;
        age_bin_edges := pd.bins age |}.

Definition col {A : Type} (f : HousingRow -> A) (df : DataFrame) : list A :=
  map f (rows df).

(** ** Sidebar (lines 27-40) *)

(** The values the four widgets return. *)
Record Criteria : Type := mkCriteria {
  age_range : float * float;
  income_range : float * float;
  rph_range : float * float;
  selected_ocean : list label
}.

Definition age_min (housing : DataFrame) : Res Z :=
  py_int (pd.min (col housing_median_age housing)).

Definition age_max (housing : DataFrame) : Res Z :=
  py_int (pd.max (col housing_median_age housing)).

Definition inc_min (housing : DataFrame) : float :=
  pd.min (col median_income housing).

Definition inc_max (housing : DataFrame) : float :=
  pd.max (col median_income housing).

Definition rph_min (housing : DataFrame) : float :=
  pd.min (col rooms_per_household housing).

(** [float(min(10, m))]: the builtin keeps its first argument unless the
    second is smaller. *)
Definition rph_max (housing : DataFrame) : float :=
  let m := pd.max (col rooms_per_household housing) in
  if m <? 10 then m else 10.

Definition ocean_options (housing : DataFrame) : list label :=
  pd.unique (col ocean_proximity housing).

(** What lines 27-40 pass to the widgets as bounds and as initial
    value: for each slider the pair of its bounds, for the multiselect
    every label.  What a widget then returns is the framework's affair
    and is not modelled: the slider returns this pair when the lower
    bound is below the upper one, but it swaps a reversed pair and
    raises on equal bounds. *)
Definition default_criteria (housing : DataFrame) : Res Criteria :=
  lo <- age_min housing ;;
  hi <- age_max housing ;;
  Ok {| age_range := (float_of_Z lo, float_of_Z hi);
        income_range := (inc_min housing, inc_max housing);
        rph_range := (rph_min housing, rph_max housing);
        selected_ocean := ocean_options housing |}.

(** ** The filter (lines 43-48) *)

Definition filtered (c : Criteria) (housing : DataFrame) : DataFrame :=
  let mask :=
    pd.mask_and
      (pd.mask_and
         (pd.mask_and
            (pd.between (col housing_median_age housing)
                        (fst (age_range c)) (snd (age_range c)))
            (pd.between (col median_income housing)
                        (fst (income_range c)) (snd (income_range c))))
         (pd.between (col rooms_per_household housing)
                     (fst (rph_range c)) (snd (rph_range c))))
      (pd.isin (col ocean_proximity housing) (selected_ocean c)) in
  {| rows := pd.boolean_index (rows housing) mask;
     lat_bin_edges := lat_bin_edges housing;
     age_bin_edges := age_bin_edges housing |}.

(** ** KPI cards (lines 53-56) and the latitude-bin chart (lines 109-114) *)

Definition k1_metric (view : DataFrame) : string :=
  ("$" ++ fmt.fixed true 0 (pd.mean (col median_house_value view)))%string.

Definition k2_metric (view : DataFrame) : string :=
  fmt.fixed false 2 (pd.mean (col median_income view)).

Definition k3_metric (view : DataFrame) : string :=
  fmt.int_comma (length (rows view)).

Definition has_code (f : HousingRow -> option nat) (i : nat) (r : HousingRow) : bool :=
  match f r with
  | Some j => (i =? j)%nat
  | None => false
  end.

(** [groupby('lat_bin', observed=False)['median_house_value'].mean()]:
    one mean per category, in category order, whether or not the category
    has rows.  The keys and the NaN of a category without rows are the
    library's; the mean of a category with several rows is [pd.mean],
    with the reservation made there. *)
Definition lat_value (view : DataFrame) : list (nat * float) :=
  map (fun i =>
         (i, pd.mean (map (fun r : HousingRow => median_house_value r)
                          (filter (has_code lat_bin i) (rows view)))))
      (seq 0 (length (lat_bin_categories view))).

(** ** The specification's vocabulary *)

(** A cell lies in a closed range. *)
Definition in_range (range : float * float) (x : float) : Prop :=
  (fst range <=? x) = true /\ (x <=? snd range) = true.

(** The four predicates of the filter on one record, conjoined. *)
Definition keeps (c : Criteria) (r : HousingRow) : bool :=
  ((fst (age_range c) <=? housing_median_age r) && (housing_median_age r <=? snd (age_range c)))
  && ((fst (income_range c) <=? median_income r) && (median_income r <=? snd (income_range c)))
  && ((fst (rph_range c) <=? rooms_per_household r)
      && (rooms_per_household r <=? snd (rph_range c)))
  && existsb (same_label (ocean_proximity r)) (selected_ocean c).

(** [l1] is [l2] with some elements left out, the others in place. *)
Inductive Subseq {A : Type} : list A -> list A -> Prop :=
| Subseq_nil : Subseq [] []
| Subseq_skip : forall x l1 l2, Subseq l1 l2 -> Subseq l1 (x :: l2)
| Subseq_keep : forall x l1 l2, Subseq l1 l2 -> Subseq (x :: l1) (x :: l2).

(** Every criterion at its full observed extent. *)
Definition full_extent (housing : DataFrame) : Criteria :=
  {| age_range := (pd.min (col housing_median_age housing),
                   pd.max (col housing_median_age housing));
     income_range := (pd.min (col median_income housing),
                      pd.max (col median_income housing));
     rph_range := (pd.min (col rooms_per_household housing),
                   pd.max (col rooms_per_household housing));
     selected_ocean := pd.unique (col ocean_proximity housing) |}.

(** One criterion widened, the other three unchanged: a range minimum
    lowered, a range maximum raised, or labels added. *)
Inductive widens : Criteria -> Criteria -> Prop :=
| widen_age_min : forall a b i p o a',
    (a' <=? a) = true -> widens (mkCriteria (a, b) i p o) (mkCriteria (a', b) i p o)
| widen_age_max : forall a b i p o b',
    (b <=? b') = true -> widens (mkCriteria (a, b) i p o) (mkCriteria (a, b') i p o)
| widen_income_min : forall g a b p o a',
    (a' <=? a) = true -> widens (mkCriteria g (a, b) p o) (mkCriteria g (a', b) p o)
| widen_income_max : forall g a b p o b',
    (b <=? b') = true -> widens (mkCriteria g (a, b) p o) (mkCriteria g (a, b') p o)
| widen_rph_min : forall g i a b o a',
    (a' <=? a) = true -> widens (mkCriteria g i (a, b) o) (mkCriteria g i (a', b) o)
| widen_rph_max : forall g i a b o b',
    (b <=? b') = true -> widens (mkCriteria g i (a, b) o) (mkCriteria g i (a, b') o)
| widen_ocean : forall g i p o o',
    incl o o' -> widens (mkCriteria g i p o) (mkCriteria g i p o').

(** The latitude bin as the specification words it: width
    [(max - min) / 5], index [floor((value - min) / width)], the maximum
    clamped into the last bin. *)
Definition spec_lat_bin (lats : list float) (v : float) : option nat :=
  let mn := pd.min lats in
  let mx := pd.max lats in
  let width := (mx - mn) / 5 in
  match float_floor ((v - mn) / width) with
  | Some k => Some (Nat.min (Z.to_nat k) 4)
  | None => None
  end.

(** Six points from [lo] to [hi], a fifth of the distance apart. *)
Definition spaced_edges (lo hi : float) : list float :=
  [ 0 * ((hi - lo) / 5) + lo;
    1 * ((hi - lo) / 5) + lo;
    2 * ((hi - lo) / 5) + lo;
    3 * ((hi - lo) / 5) + lo;
    4 * ((hi - lo) / 5) + lo;
    hi ].

(** The same points with the first one lowered by [adj]. *)
Definition lower_first (edges : list float) (adj : float) : list float :=
  match edges with
  | [] => []
  | e0 :: rest => (e0 - adj) :: rest
  end.

(** 0.1% of the size of a cell, 0.001 for a zero cell. *)
Definition widening (x : float) : float :=
  if negb (x =? 0) then 0x1.0624dd2f1a9fcp-10 * abs x else 0x1.0624dd2f1a9fcp-10.

(** What dividing by a zero cell gives: NaN when the numerator is zero
    or missing, an infinity otherwise. *)
Definition zero_divisor_rule (n d q : float) : Prop :=
  (d =? 0) = true ->
  isna q = (isna n || (n =? 0)) /\ is_infinity q = negb (isna n || (n =? 0)).

(** ** Sample data *)

Definition record (lat age rooms bedrooms pop hh income value : float)
    (ocean : string) : Row :=
  mkRow (-122) lat age rooms bedrooms pop hh income value (Some ocean).

(** The three-record scenario of the specification: households 2, 0, 4
    and total rooms 4, 5, 8. *)
Definition scenario_csv : list Row :=
  [ record 0 10 4 1 10 2 3 100000 "INLAND";
    record 1 50 5 1 10 0 4 200000 "NEAR BAY";
    record 5 52 8 2 10 4 5 300000 "INLAND" ].

(** A file with an empty block (no rooms, no households) and a block
    with households but no rooms. *)
Definition zero_cells_csv : list Row :=
  [ record 34 10 4 1 10 2 3 100000 "INLAND";
    record 35 20 0 0 0 0 4 200000 "NEAR BAY";
    record 36 30 0 0 6 3 5 300000 "INLAND" ].

(** A file without zero or missing cells. *)
Definition clean_csv : list Row :=
  [ record 34 41 880 129 322 126 8 452600 "NEAR BAY";
    record 36 21 7099 1106 2401 1138 8 358500 "NEAR BAY";
    record 38 52 1467 190 496 177 7 352100 "INLAND" ].

Definition frame_of (csv : list Row) : DataFrame :=
  match load_data csv with
  | Ok housing => housing
  | Raise _ => mkDataFrame [] [] []
  end.

(** A file whose records lack their house value. *)
Definition unpriced_csv : list Row :=
  [ record 34 41 880 129 322 126 8 nan "INLAND";
    record 36 21 7099 1106 2401 1138 8 nan "NEAR BAY" ].

(** A file with a record that lacks its ocean-proximity label. *)
Definition unlabelled_csv : list Row :=
  [ record 34 41 880 129 322 126 8 452600 "INLAND";
    mkRow (-122) 36 21 7099 1106 2401 1138 8 358500 None ].

(** Sample widget values. *)
Definition both_labels : list label := [Some "INLAND"; Some "NEAR BAY"]%string.

Definition capped_criteria : Criteria :=
  mkCriteria (0, 100) (0, 10) (0, 10) both_labels.

Definition unbounded_criteria : Criteria :=
  mkCriteria (0, 100) (0, 10) (0, infinity) both_labels.

Definition no_label_criteria : Criteria :=
  mkCriteria (0, 100) (0, 100) (0, 100) [].

(** The view of [clean_csv] with no label selected. *)
Definition empty_view : DataFrame := filtered no_label_criteria (frame_of clean_csv).

Definition from_age_20 : Criteria := mkCriteria (20, 60) (0, 10) (0, 10) both_labels.

Definition from_age_10 : Criteria := mkCriteria (10, 60) (0, 10) (0, 10) both_labels.

(** The second record of the scenario as [load_data] returns it. *)
Definition no_household_row : HousingRow :=
  mkHousingRow (record 1 50 5 1 10 0 4 200000 "NEAR BAY")
               infinity (1 / 5) infinity (Some 0%nat) (Some 9%nat) "Old (>=20)".

(** ** Box-plot inputs (lines 98-99 and 181-182) *)

(** [view[view[column] == c]['median_house_value']]: the rows whose
    cell equals [c] under [==], then their house values. *)
Definition values_where {L : Type} (equals : L -> L -> bool)
    (column : HousingRow -> L) (c : L) (view : DataFrame) : list float :=
  map (fun r : HousingRow => median_house_value r)
      (pd.boolean_index (rows view)
                        (map (fun r => equals (column r) c) (rows view))).

(** Tab 4: one list of house values per distinct label of the view.  A
    missing label is among the distinct values but equals no cell. *)
Definition ocean_box_data (view : DataFrame) : list (label * list float) :=
  let cats := pd.unique (col ocean_proximity view) in
  map (fun c => (c, values_where label_equals (fun r => ocean_proximity r) c view)) cats.

(** The record has an ocean-proximity label. *)
Definition has_label (r : HousingRow) : bool :=
  match ocean_proximity r with
  | Some _ => true
  | None => false
  end.

(** Tab 11: one list of house values per age category. *)
Definition age_cats : list string := ["New (<20)"; "Old (>=20)"]%string.

Definition age_box_data (view : DataFrame) : list (string * list float) :=
  map (fun c => (c, values_where String.eqb age_category c view)) age_cats.

(** The separators of a formatted count taken out again. *)
Definition not_comma (a : ascii) : bool := negb (Ascii.eqb a ","%char).

Definition strip_commas (s : string) : string :=
  string_of_list_ascii (filter not_comma (list_ascii_of_string s)).

(** Reading a formatted count back as a number. *)
Definition parse_count (s : string) : option N :=
  option_map N.of_uint (NilZero.uint_of_string (strip_commas s)).

(** Two views of one frame: the criteria of both, applied together. *)
Definition both_criteria_keep (c1 c2 : Criteria) (r : HousingRow) : bool :=
  keeps c1 r && keeps c2 r.

(** A range no cell can lie in: a missing bound, or the maximum below
    the minimum. *)
Definition empty_range (range : float * float) : Prop :=
  isna (fst range) = true \/ isna (snd range) = true \/ (snd range <? fst range) = true.

(** Criteria no record can meet. *)
Definition unsatisfiable (c : Criteria) : Prop :=
  empty_range (age_range c) \/ empty_range (income_range c) \/
  empty_range (rph_range c) \/ selected_ocean c = [].

(** ** The correlation heatmap (lines 153-156) *)

(** [filtered[num_cols].corr()] hands the ten columns, as one binary64
    matrix, to the library's [nancorr] routine with [min_periods = 1].
    The module below follows that routine statement by statement, each
    arithmetic operation rounded on its own (no fused multiply-add). *)

(** The row counter of the loop converted to binary64, as in
    [1. / nobs]. *)
Definition count_to_float (n : nat) : float :=
  of_uint63 (Uint63.of_Z (Z.of_nat n)).

Module algos.

(** The accumulators of one pair of columns. *)
Record Welford : Type := mkWelford {
  nobs : nat;
  meanx : float;
  meany : float;
  ssqdm_x : float;
  ssqdm_y : float;
  covxy : float
}.

Definition start : Welford := mkWelford 0 0 0 0 0 0.

(** One row of the inner loop.  The mask is [isfinite]: a row counts
    only when both cells are neither missing nor infinite. *)
Definition observe (w : Welford) (vx vy : float) : Welford :=
  if is_finite vx && is_finite vy then
    let n := S (nobs w) in
    let dx := vx - meanx w in
    let dy := vy - meany w in
    let mx := meanx w + 1 / count_to_float n * dx in
    let my := meany w + 1 / count_to_float n * dy in
    {| nobs := n;
       meanx := mx;
       meany := my;
       ssqdm_x := ssqdm_x w + (vx - mx) * dx;
       ssqdm_y := ssqdm_y w + (vy - my) * dy;
       covxy := covxy w + (vx - mx) * dy |}
  else w.

Fixpoint run (w : Welford) (x y : list float) : Welford :=
  match x, y with
  | vx :: x', vy :: y' => run (observe w vx vy) x' y'
  | _, _ => w
  end.

(** Recent versions of the library clamp the coefficient to [-1, 1];
    older ones do not. *)
Definition clip (clipped : bool) (val : float) : float :=
  if clipped then
    if 1 <? val then 1 else if val <? -1 then -1 else val
  else val.

(** The entry for the pair of columns [x], [y]: NaN below [minp]
    observations or when the divisor is zero. *)
Definition pearson (clipped : bool) (minp : nat) (x y : list float) : float :=
  let w := run start x y in
  if (nobs w <? minp)%nat then nan
  else
    let divisor := PrimFloat.sqrt (ssqdm_x w * ssqdm_y w) in
    if negb (divisor =? 0) then clip clipped (covxy w / divisor) else nan.

(** The loop computes the entry for [yi <= xi] and stores it at
    [(xi, yi)] and [(yi, xi)]. *)
Definition nancorr (clipped : bool) (minp : nat) (mat : list (list float))
  : list (list float) :=
  let K := length mat in
  map (fun xi =>
         map (fun yi =>
                pearson clipped minp (nth (Nat.max xi yi) mat [])
                                     (nth (Nat.min xi yi) mat []))
             (seq 0 K))
      (seq 0 K).

End algos.

(** [num_cols] (lines 153-155), in source order. *)
Definition num_cols : list (HousingRow -> float) :=
  [ (fun r : HousingRow => median_house_value r);
    (fun r : HousingRow => median_income r);
    (fun r : HousingRow => total_rooms r);
    (fun r : HousingRow => total_bedrooms r);
    (fun r : HousingRow => population r);
    (fun r : HousingRow => households r);
    (fun r : HousingRow => housing_median_age r);
    rooms_per_household;
    bedrooms_per_room;
    population_per_household ].

(** [filtered[num_cols]] as a matrix, one list per column. *)
Definition num_matrix (view : DataFrame) : list (list float) :=
  map (fun f => col f view) num_cols.

(** [corr = filtered[num_cols].corr()] (line 156). *)
Definition corr (clipped : bool) (view : DataFrame) : list (list float) :=
  algos.nancorr clipped 1 (num_matrix view).

Definition corr_at (clipped : bool) (view : DataFrame) (i j : nat) : float :=
  nth j (nth i (corr clipped view) []) nan.

(** The sum of squared deviations the routine accumulates for a column
    paired with itself. *)
Definition sum_sq_dev (x : list float) : float :=
  algos.ssqdm_x (algos.run algos.start x x).

(** Zero variance: every finite cell of the column equals [v]. *)
Definition all_finite_equal (v : float) (s : list float) : bool :=
  forallb (fun x => negb (is_finite x) || (x =? v)) s.

(** The column has two cells with different values. *)
Definition two_distinct (s : list float) : bool :=
  existsb (fun a => existsb (fun b => notna a && notna b && negb (a =? b)) s) s.

(** A running mean and sum of squared deviations over cells that are all
    [v]: the sum is a zero, and the mean is [v] once a cell was seen. *)
Definition settled (v : float) (n : nat) (mean ssq : float) : Prop :=
  (ssq =? 0) = true /\
  (((v =? 0) = true /\ (mean =? 0) = true) \/
   ((v =? 0) = false /\ (n = 0%nat -> mean = 0) /\ (n <> 0%nat -> mean = v))).

(** Classes of specification floats. *)
Definition sf_finite_or_zero (x : spec_float) : bool :=
  match x with
  | S754_zero _ | S754_finite _ _ _ => true
  | _ => false
  end.

Definition sf_zero (x : spec_float) : bool :=
  match x with S754_zero _ => true | _ => false end.

(** A file with a block that has households but no rooms: its
    bedrooms_per_room is 1/0. *)
Definition no_rooms_csv : list Row :=
  [ record 34 10 0 1 300 100 2 100000 "INLAND";
    record 35 20 4 1 10 2 3 200000 "NEAR BAY";
    record 36 30 8 2 12 3 5 300000 "INLAND" ].

Definition no_rooms_view : DataFrame :=
  filtered capped_criteria (frame_of no_rooms_csv).

(** The view of the scenario under the capped rooms-per-household
    slider: the record without households is out. *)
Definition scenario_view : DataFrame :=
  filtered capped_criteria (frame_of scenario_csv).

(** * Binary64 order *)

Section FloatOrder.

Lemma cmp_cont_eq (p q : positive) :
  PosDef.Pos.compare_cont Eq p q = Pos.compare p q.
Proof. reflexivity. Qed.

End FloatOrder.

Ltac cmp_cases :=
  repeat match goal with
  | H : context [PosDef.Pos.compare_cont Eq ?p ?q] |- _ =>
      rewrite (cmp_cont_eq p q) in H; destruct (Pos.compare_spec p q)
  | H : context [Z.compare ?a ?b] |- _ => destruct (Z.compare_spec a b)
  | |- context [PosDef.Pos.compare_cont Eq ?p ?q] =>
      rewrite (cmp_cont_eq p q); destruct (Pos.compare_spec p q)
  | |- context [Z.compare ?a ?b] => destruct (Z.compare_spec a b)
  end.

(** Case analysis on specification floats down to integer comparisons. *)
Ltac sf_crush :=
  unfold SFleb, SFltb, SFeqb, SFcompare in *;
  repeat match goal with
  | x : spec_float |- _ => destruct x
  | b : bool |- _ => destruct b
  end;
  simpl in *; try discriminate; try reflexivity; try tauto;
  cmp_cases; subst; simpl in *;
  try discriminate; try reflexivity; try lia; try tauto.

(** Move a goal about primitive comparisons to specification floats. *)
Ltac to_spec :=
  unfold notna, isna, is_infinity, is_nan;
  rewrite ?leb_spec, ?ltb_spec, ?eqb_spec, ?abs_spec, ?div_spec;
  change (Prim2SF 0) with (S754_zero false);
  change (Prim2SF infinity) with (S754_infinity false);
  repeat match goal with
  | |- context [Prim2SF ?x] =>
      let s := fresh "s" in generalize (Prim2SF x); intro s
  end.

Section FloatOrderFacts.

Variables a b c : float.

Lemma leb_trans : (a <=? b) = true -> (b <=? c) = true -> (a <=? c) = true.
Proof. to_spec. sf_crush. Qed.

Lemma ltb_leb_trans : (a <? b) = true -> (b <=? c) = true -> (a <? c) = true.
Proof. to_spec. sf_crush. Qed.

Lemma leb_ltb_trans : (a <=? b) = true -> (b <? c) = true -> (a <? c) = true.
Proof. to_spec. sf_crush. Qed.

Lemma ltb_leb : (a <? b) = true -> (a <=? b) = true.
Proof. to_spec. sf_crush. Qed.

Lemma leb_refl : isna a = false -> (a <=? a) = true.
Proof. to_spec. sf_crush. Qed.

Lemma not_ltb_leb :
  isna a = false -> isna b = false -> (a <? b) = false -> (b <=? a) = true.
Proof. to_spec. sf_crush. Qed.

Lemma leb_not_ltb : (a <=? b) = true -> (b <? a) = false.
Proof. to_spec. sf_crush. Qed.

Lemma leb_notna_l : (a <=? b) = true -> isna a = false.
Proof. to_spec. sf_crush. Qed.

Lemma leb_notna_r : (a <=? b) = true -> isna b = false.
Proof. to_spec. sf_crush. Qed.

Lemma ltb_notna_r : (a <? b) = true -> isna b = false.
Proof. to_spec. sf_crush. Qed.

(** A cell between two finite bounds is finite. *)
Lemma between_finite :
  (a <=? b) = true -> (b <=? c) = true ->
  is_infinity a = false -> is_infinity c = false ->
  isna b = false /\ is_infinity b = false.
Proof. to_spec. sf_crush. Qed.

(** Division by a zero cell. *)
Lemma div_zero_divisor : zero_divisor_rule a b (a / b).
Proof. unfold zero_divisor_rule. to_spec. unfold SF64div, SFdiv. sf_crush. Qed.

End FloatOrderFacts.

(** * The filter as a row-wise selection *)

Section LabelFacts.

Lemma same_label_eq (a b : label) : same_label a b = true <-> a = b.
Proof.
  destruct a as [x|], b as [y|]; simpl; split; intros H;
    try discriminate; try reflexivity.
  - apply String.eqb_eq in H. congruence.
  - injection H as ->. apply String.eqb_refl.
Qed.

Lemma same_label_refl (a : label) : same_label a a = true.
Proof. apply same_label_eq. reflexivity. Qed.

End LabelFacts.

Section FilterFacts.

Lemma filtered_rows (c : Criteria) (housing : DataFrame) :
  rows (filtered c housing) = filter (keeps c) (rows housing).
Proof.
  unfold filtered, col, pd.between, pd.isin; simpl.
  induction (rows housing) as [|r l IH]; simpl; [reflexivity|].
  rewrite IH. unfold keeps. reflexivity.
Qed.

Lemma Subseq_filter {A : Type} (p : A -> bool) (l : list A) :
  Subseq (filter p l) l.
Proof.
  induction l as [|x l IH]; simpl.
  - constructor.
  - destruct (p x); constructor; exact IH.
Qed.

Lemma filter_idem {A : Type} (p : A -> bool) (l : list A) :
  filter p (filter p l) = filter p l.
Proof.
  induction l as [|x l IH]; simpl; [reflexivity|].
  destruct (p x) eqn:E; simpl; rewrite ?E, IH; reflexivity.
Qed.

Lemma Subseq_filter_mono {A : Type} (p q : A -> bool) (l : list A) :
  (forall x, In x l -> p x = true -> q x = true) ->
  Subseq (filter p l) (filter q l).
Proof.
  induction l as [|x l IH]; simpl; intros H.
  - constructor.
  - assert (IH' : Subseq (filter p l) (filter q l)) by (apply IH; auto).
    destruct (p x) eqn:Ep.
    + rewrite (H x (or_introl eq_refl) Ep). constructor; exact IH'.
    + destruct (q x); [constructor|]; exact IH'.
Qed.

Lemma Subseq_incl {A : Type} (l1 l2 : list A) : Subseq l1 l2 -> incl l1 l2.
Proof.
  induction 1; intros y Hy; simpl in *; auto.
  destruct Hy as [->|Hy]; auto.
Qed.

Lemma keeps_in_range (c : Criteria) (r : HousingRow) :
  keeps c r = true <->
  in_range (age_range c) (housing_median_age r) /\
  in_range (income_range c) (median_income r) /\
  in_range (rph_range c) (rooms_per_household r) /\
  In (ocean_proximity r) (selected_ocean c).
Proof.
  unfold keeps, in_range. rewrite !andb_true_iff, existsb_exists.
  split.
  - intros [[[[H1 H2] [H3 H4]] [H5 H6]] [l [Hl He]]].
    apply same_label_eq in He; subst l. tauto.
  - intros [[H1 H2] [[H3 H4] [[H5 H6] Hl]]].
    repeat split; auto.
    exists (ocean_proximity r); split; [exact Hl | apply same_label_refl].
Qed.

Lemma keeps_widens (c c' : Criteria) (r : HousingRow) :
  widens c c' -> keeps c r = true -> keeps c' r = true.
Proof.
  intros W. rewrite !keeps_in_range. unfold in_range.
  destruct W; simpl; intros [[H1 H2] [[H3 H4] [[H5 H6] Hl]]];
    repeat split; eauto using leb_trans.
Qed.

End FilterFacts.

(** * Observed extent of a column *)

Section Extent.

Lemma notna_false_iff (x : float) : notna x = true <-> isna x = false.
Proof. unfold notna. destruct (isna x); simpl; intuition congruence. Qed.

Lemma fold_min_below (xs : list float) : forall x0,
  isna x0 = false ->
  Forall (fun y => isna y = false) xs ->
  let m := fold_left (fun acc y => if y <? acc then y else acc) xs x0 in
  (m <=? x0) = true /\ Forall (fun y => (m <=? y) = true) xs.
Proof.
  induction xs as [|y ys IH]; simpl; intros x0 Hx0 Hxs.
  - split; [apply leb_refl; exact Hx0 | constructor].
  - inversion Hxs as [|? ? Hy Hys]; subst.
    set (x1 := if y <? x0 then y else x0).
    assert (H1 : isna x1 = false) by (unfold x1; destruct (y <? x0); assumption).
    assert (H10 : (x1 <=? x0) = true).
    { unfold x1. destruct (y <? x0) eqn:E; [apply ltb_leb, E | apply leb_refl, Hx0]. }
    assert (H1y : (x1 <=? y) = true).
    { unfold x1. destruct (y <? x0) eqn:E;
        [apply leb_refl, Hy | apply not_ltb_leb; assumption]. }
    destruct (IH x1 H1 Hys) as [Hm Hall].
    split; [eapply leb_trans; eassumption|].
    constructor; [eapply leb_trans; eassumption | exact Hall].
Qed.

Lemma fold_max_above (xs : list float) : forall x0,
  isna x0 = false ->
  Forall (fun y => isna y = false) xs ->
  let m := fold_left (fun acc y => if acc <? y then y else acc) xs x0 in
  (x0 <=? m) = true /\ Forall (fun y => (y <=? m) = true) xs.
Proof.
  induction xs as [|y ys IH]; simpl; intros x0 Hx0 Hxs.
  - split; [apply leb_refl; exact Hx0 | constructor].
  - inversion Hxs as [|? ? Hy Hys]; subst.
    set (x1 := if x0 <? y then y else x0).
    assert (H1 : isna x1 = false) by (unfold x1; destruct (x0 <? y); assumption).
    assert (H10 : (x0 <=? x1) = true).
    { unfold x1. destruct (x0 <? y) eqn:E; [apply ltb_leb, E | apply leb_refl, Hx0]. }
    assert (H1y : (y <=? x1) = true).
    { unfold x1. destruct (x0 <? y) eqn:E;
        [apply leb_refl, Hy | apply not_ltb_leb; assumption]. }
    destruct (IH x1 H1 Hys) as [Hm Hall].
    split; [eapply leb_trans; eassumption|].
    constructor; [eapply leb_trans; eassumption | exact Hall].
Qed.

Lemma filter_notna_Forall (s : list float) :
  Forall (fun y => isna y = false) (filter notna s).
Proof.
  apply Forall_forall. intros y Hy. apply filter_In in Hy.
  apply notna_false_iff, Hy.
Qed.

(** The observed minimum is at or below every present cell. *)
Lemma min_le (s : list float) (x : float) :
  In x s -> isna x = false -> (pd.min s <=? x) = true.
Proof.
  intros Hin Hx.
  assert (Hf : In x (filter notna s))
    by (apply filter_In; split; [exact Hin | apply notna_false_iff, Hx]).
  pose proof (filter_notna_Forall s) as Hall.
  unfold pd.min. destruct (filter notna s) as [|x0 xs]; [destruct Hf|].
  inversion Hall as [|? ? H0 Hxs]; subst.
  destruct (fold_min_below xs x0 H0 Hxs) as [Hm Hrest].
  destruct Hf as [->|Hf]; [exact Hm|].
  rewrite Forall_forall in Hrest. apply Hrest, Hf.
Qed.

(** The observed maximum is at or above every present cell. *)
Lemma max_ge (s : list float) (x : float) :
  In x s -> isna x = false -> (x <=? pd.max s) = true.
Proof.
  intros Hin Hx.
  assert (Hf : In x (filter notna s))
    by (apply filter_In; split; [exact Hin | apply notna_false_iff, Hx]).
  pose proof (filter_notna_Forall s) as Hall.
  unfold pd.max. destruct (filter notna s) as [|x0 xs]; [destruct Hf|].
  inversion Hall as [|? ? H0 Hxs]; subst.
  destruct (fold_max_above xs x0 H0 Hxs) as [Hm Hrest].
  destruct Hf as [->|Hf]; [exact Hm|].
  rewrite Forall_forall in Hrest. apply Hrest, Hf.
Qed.

Lemma unique_from_covers (s : list label) : forall seen x,
  In x s -> In x seen \/ In x (pd.unique_from seen s).
Proof.
  induction s as [|y ys IH]; simpl; intros seen x Hin; [destruct Hin|].
  destruct (existsb (same_label y) seen) eqn:E.
  - destruct Hin as [->|Hin]; [|apply IH, Hin].
    left. apply existsb_exists in E. destruct E as [z [Hz Hyz]].
    apply same_label_eq in Hyz; subst; exact Hz.
  - destruct Hin as [->|Hin]; [right; left; reflexivity|].
    destruct (IH (y :: seen) x Hin) as [[->|H]|H]; simpl; auto.
Qed.

(** Every label of a column is among its distinct values. *)
Lemma unique_covers (s : list label) (x : label) :
  In x s -> In x (pd.unique s).
Proof.
  intros H. destruct (unique_from_covers s [] x H) as [[]|H']; exact H'.
Qed.

Lemma filter_all {A : Type} (p : A -> bool) (l : list A) :
  (forall x, In x l -> p x = true) -> filter p l = l.
Proof.
  induction l as [|x l IH]; simpl; intros H; [reflexivity|].
  rewrite (H x (or_introl eq_refl)), IH; auto.
Qed.

End Extent.

(** * Insertion points and bin codes *)

Section CutFacts.

Lemma np_lt_notna (b x : float) : isna x = false -> np.lt b x = (b <? x).
Proof. intros H. unfold np.lt. rewrite H. simpl. apply orb_false_r. Qed.

Lemma searchsorted_le (bins : list float) (x : float) :
  (np.searchsorted bins x <= length bins)%nat.
Proof.
  induction bins as [|b bs IH]; simpl; [lia|].
  destruct (np.lt b x); lia.
Qed.

Lemma searchsorted_before (bins : list float) (x : float) : forall j,
  (j < np.searchsorted bins x)%nat -> np.lt (nth j bins nan) x = true.
Proof.
  induction bins as [|b bs IH]; simpl; intros j Hj; [lia|].
  destruct (np.lt b x) eqn:E; [|lia].
  destruct j as [|j]; [exact E | apply IH; lia].
Qed.

Lemma searchsorted_at (bins : list float) (x : float) :
  (np.searchsorted bins x < length bins)%nat ->
  np.lt (nth (np.searchsorted bins x) bins nan) x = false.
Proof.
  induction bins as [|b bs IH]; simpl; intros H; [lia|].
  destruct (np.lt b x) eqn:E; [apply IH; lia | exact E].
Qed.

Lemma searchsorted_char (bins : list float) (x : float) : forall k,
  (k <= length bins)%nat ->
  (forall j, (j < k)%nat -> np.lt (nth j bins nan) x = true) ->
  ((k < length bins)%nat -> np.lt (nth k bins nan) x = false) ->
  np.searchsorted bins x = k.
Proof.
  induction bins as [|b bs IH]; simpl; intros k Hk Hlt Hstop.
  - lia.
  - destruct k as [|k].
    + rewrite Hstop by lia. reflexivity.
    + rewrite (Hlt 0%nat) by lia. f_equal. apply IH.
      * lia.
      * intros j Hj. apply (Hlt (S j)). lia.
      * intros Hk'. apply Hstop. lia.
Qed.

(** A cell with code [i] lies above edge [i] and not above edge [i+1]. *)
Lemma cut_code_sound (bins : list float) (x : float) (i : nat) :
  pd.cut_code bins x = Some i ->
  (S i < length bins)%nat /\
  (nth i bins nan <? x) = true /\
  (nth (S i) bins nan <? x) = false /\
  (isna (nth (S i) bins nan) = false -> (x <=? nth (S i) bins nan) = true).
Proof.
  unfold pd.cut_code.
  pose proof (searchsorted_le bins x) as Hle.
  destruct (isna x) eqn:Hx; simpl; [discriminate|].
  destruct (Nat.eqb_spec (np.searchsorted bins x) (length bins)) as [|Hn];
    simpl; [discriminate|].
  destruct (Nat.eqb_spec (np.searchsorted bins x) 0) as [|Hz]; simpl; [discriminate|].
  intros H; injection H as <-.
  replace (S (np.searchsorted bins x - 1)) with (np.searchsorted bins x) by lia.
  assert (Hb : (nth (np.searchsorted bins x - 1) bins nan <? x) = true).
  { rewrite <- (np_lt_notna _ _ Hx). apply searchsorted_before. lia. }
  assert (Ha : (nth (np.searchsorted bins x) bins nan <? x) = false).
  { rewrite <- (np_lt_notna _ _ Hx). apply searchsorted_at. lia. }
  repeat split; [lia | exact Hb | exact Ha |].
  intros Hedge. apply not_ltb_leb; assumption.
Qed.

Lemma monotonic_head (l : list float) : forall a,
  pd.is_monotonic_increasing (a :: l) = true ->
  forall k, (k < length l)%nat -> (a <=? nth k l nan) = true.
Proof.
  induction l as [|b l IH]; intros a H k Hk; simpl in Hk; [lia|].
  simpl in H. apply andb_true_iff in H. destruct H as [Hab Hrest].
  destruct k as [|k]; [exact Hab|].
  simpl. eapply leb_trans; [exact Hab|]. apply IH; [exact Hrest | lia].
Qed.

Lemma monotonic_tail (a : float) (l : list float) :
  pd.is_monotonic_increasing (a :: l) = true -> pd.is_monotonic_increasing l = true.
Proof.
  destruct l as [|b l]; [reflexivity|].
  simpl. intros H. apply andb_true_iff in H. apply H.
Qed.

Lemma monotonic_nth (bins : list float) : forall j k,
  pd.is_monotonic_increasing bins = true ->
  (j < k)%nat -> (k < length bins)%nat ->
  (nth j bins nan <=? nth k bins nan) = true.
Proof.
  induction bins as [|a l IH]; intros j k H Hjk Hk; simpl in Hk; [lia|].
  destruct k as [|k]; [lia|].
  destruct j as [|j].
  - simpl. apply monotonic_head; [exact H | lia].
  - simpl. apply IH; [eapply monotonic_tail; exact H | lia | lia].
Qed.

(** On increasing edges, a cell above edge [i] and at or below edge
    [i+1] gets code [i]. *)
Lemma cut_code_complete (bins : list float) (x : float) (i : nat) :
  pd.is_monotonic_increasing bins = true ->
  (S i < length bins)%nat ->
  (nth i bins nan <? x) = true ->
  (x <=? nth (S i) bins nan) = true ->
  pd.cut_code bins x = Some i.
Proof.
  intros Hmono Hlen Hlo Hhi.
  assert (Hx : isna x = false) by (eapply ltb_notna_r; exact Hlo).
  assert (Hs : np.searchsorted bins x = S i).
  { apply searchsorted_char.
    - lia.
    - intros j Hj. rewrite (np_lt_notna _ _ Hx).
      destruct (Nat.eq_dec j i) as [->|Hne]; [exact Hlo|].
      eapply leb_ltb_trans; [|exact Hlo].
      apply monotonic_nth; [exact Hmono | lia | lia].
    - intros _. rewrite (np_lt_notna _ _ Hx). apply leb_not_ltb, Hhi. }
  unfold pd.cut_code. rewrite Hs, Hx.
  destruct (Nat.eqb_spec (S i) (length bins)) as [E|_]; [lia|].
  simpl. f_equal. lia.
Qed.

Lemma set_last_length (y : list float) (v : float) :
  length (np.set_last y v) = length y.
Proof.
  destruct y as [|a y]; [reflexivity|].
  unfold np.set_last.
  rewrite length_app, removelast_firstn_len, length_firstn. simpl. lia.
Qed.

Lemma linspace_length (start stop : float) (num : nat) :
  length (np.linspace start stop num) = num.
Proof.
  unfold np.linspace.
  repeat match goal with
  | |- context [if ?b then _ else _] => destruct b
  end;
  rewrite ?set_last_length, !length_map, length_seq; reflexivity.
Qed.

End CutFacts.

(** * The loaded frame *)

Section LoadFacts.

Lemma cut_age_edges (x : list float) :
  pd.cut x age_edges =
  Ok {| pd.codes := map (pd.cut_code age_edges) x; pd.bins := age_edges |}.
Proof.
  unfold pd.cut, pd.bins_to_cuts.
  assert (H1 : pd.is_monotonic_increasing age_edges = true) by (vm_compute; reflexivity).
  assert (H2 : (length (pd.unique_edges age_edges) <? length age_edges)%nat = false)
    by (vm_compute; reflexivity).
  rewrite H1, H2. reflexivity.
Qed.

(** What a successful [load_data] returns, row by row. *)
Lemma load_data_ok (csv : list Row) (housing : DataFrame) :
  load_data csv = Ok housing ->
  pd.nbins_to_bins (map latitude csv) 5 = Ok (lat_bin_edges housing) /\
  age_bin_edges housing = age_edges /\
  rows housing =
    map (fun r =>
           {| raw := r;
              rooms_per_household := total_rooms r / households r;
              bedrooms_per_room := total_bedrooms r / total_rooms r;
              population_per_household := population r / households r;
              lat_bin := pd.cut_code (lat_bin_edges housing) (latitude r);
              age_bin := pd.cut_code age_edges (housing_median_age r);
              age_category := age_category_of (housing_median_age r) |}) csv.
Proof.
  unfold load_data, pd.cut_nbins. rewrite cut_age_edges.
  destruct (pd.nbins_to_bins (map latitude csv) 5) as [edges|e]; simpl; [|discriminate].
  unfold pd.bins_to_cuts.
  destruct ((length (pd.unique_edges edges) <? length edges)%nat
            && negb (length edges =? 2)%nat); simpl; [discriminate|].
  intros H; injection H as <-. simpl. auto.
Qed.

Lemma load_data_row (csv : list Row) (housing : DataFrame) (r : HousingRow) :
  load_data csv = Ok housing -> In r (rows housing) ->
  rooms_per_household r = total_rooms r / households r /\
  bedrooms_per_room r = total_bedrooms r / total_rooms r /\
  population_per_household r = population r / households r /\
  lat_bin r = pd.cut_code (lat_bin_edges housing) (latitude r) /\
  age_bin r = pd.cut_code age_edges (housing_median_age r).
Proof.
  intros Hload Hin. destruct (load_data_ok _ _ Hload) as (_ & _ & Hrows).
  rewrite Hrows in Hin. apply in_map_iff in Hin. destruct Hin as [x [<- _]].
  simpl. auto.
Qed.

Lemma nbins_to_bins_length (x : list float) (n : nat) (edges : list float) :
  pd.nbins_to_bins x n = Ok edges -> length edges = (n + 1)%nat.
Proof.
  unfold pd.nbins_to_bins.
  destruct (n <? 1)%nat; [discriminate|].
  destruct x as [|x0 x]; [discriminate|].
  destruct (is_infinity _ || is_infinity _); [discriminate|].
  destruct (_ =? _).
  - intros H; injection H as <-. apply linspace_length.
  - intros H; injection H as <-.
    pose proof (linspace_length (pd.min (x0 :: x)) (pd.max (x0 :: x)) (n + 1)) as L.
    destruct (np.linspace _ _ _); simpl in *; exact L.
Qed.

Lemma intervals_length (edges : list float) :
  length (pd.intervals edges) = (length edges - 1)%nat.
Proof.
  unfold pd.intervals. rewrite length_combine.
  destruct edges as [|e edges]; [reflexivity|].
  cbn [tl length]. lia.
Qed.

Lemma age_edges_nth (k : nat) :
  (k <= 10)%nat -> nth k age_edges nan = float_of_nat (5 * k).
Proof.
  intros H. unfold age_edges.
  rewrite (nth_indep _ nan (float_of_nat (5 * 0))) by (rewrite length_map, length_seq; lia).
  rewrite (map_nth (fun k => float_of_nat (5 * k))), seq_nth by lia.
  reflexivity.
Qed.

End LoadFacts.

(** * The filter *)

Lemma filtered_frame (c : Criteria) (housing : DataFrame) :
  filtered c housing =
  {| rows := filter (keeps c) (rows housing);
     lat_bin_edges := lat_bin_edges housing;
     age_bin_edges := age_bin_edges housing |}.
Proof.
  pose proof (filtered_rows c housing) as H.
  unfold filtered in *. simpl in *. rewrite H. reflexivity.
Qed.

Lemma filtered_conjunction_rows (c : Criteria) (housing : DataFrame) (r : HousingRow) :
  In r (rows (filtered c housing)) -> In r (rows housing) /\ keeps c r = true.
Proof. rewrite filtered_rows. apply filter_In. Qed.

(** C6.  The filtered view is exactly the records of the frame that
    satisfy all four predicates at once (age in range, income in range,
    rooms per household in range, label selected), in the order of the
    frame; the view is a frame like any other, also when no record is
    left. *)
Theorem filtered_conjunction_in_order (c : Criteria) (housing : DataFrame) :
  rows (filtered c housing) = filter (keeps c) (rows housing) /\
  Subseq (rows (filtered c housing)) (rows housing) /\
  (forall r,
     In r (rows (filtered c housing)) <->
     In r (rows housing) /\
     in_range (age_range c) (housing_median_age r) /\
     in_range (income_range c) (median_income r) /\
     in_range (rph_range c) (rooms_per_household r) /\
     In (ocean_proximity r) (selected_ocean c)) /\
  ((forall r, In r (rows housing) -> keeps c r = false) ->
   rows (filtered c housing) = []).
Proof.
  rewrite filtered_rows.
  split; [reflexivity|]. split; [apply Subseq_filter|]. split.
  - intros r. rewrite filter_In, keeps_in_range. reflexivity.
  - intros Hnone. induction (rows housing) as [|r l IH]; [reflexivity|].
    simpl. rewrite (Hnone r (or_introl eq_refl)). apply IH.
    intros r' Hr'. apply Hnone. right; exact Hr'.
Qed.

(** C8.  Filtering a filtered view again with the same criteria gives
    the same view. *)
Theorem filtered_idempotent (c : Criteria) (housing : DataFrame) :
  filtered c (filtered c housing) = filtered c housing.
Proof.
  rewrite !filtered_frame. simpl. rewrite filter_idem. reflexivity.
Qed.

(** C9.  Widening one criterion (a lower range minimum, a higher range
    maximum, or more labels) with the other three unchanged never loses
    a record: the old view is contained in the new one, in order. *)
Theorem filtered_monotonic (c c' : Criteria) (housing : DataFrame) :
  widens c c' ->
  incl (rows (filtered c housing)) (rows (filtered c' housing)) /\
  Subseq (rows (filtered c housing)) (rows (filtered c' housing)).
Proof.
  intros W.
  assert (S : Subseq (rows (filtered c housing)) (rows (filtered c' housing))).
  { rewrite !filtered_rows. apply Subseq_filter_mono.
    intros r _. apply keeps_widens, W. }
  split; [apply Subseq_incl, S | exact S].
Qed.

Lemma filtered_monotonic_witness :
  widens from_age_20 from_age_10 /\
  incl (rows (filtered from_age_20 (frame_of clean_csv)))
       (rows (filtered from_age_10 (frame_of clean_csv))) /\
  Subseq (rows (filtered from_age_20 (frame_of clean_csv)))
         (rows (filtered from_age_10 (frame_of clean_csv))).
Proof.
  assert (W : widens from_age_20 from_age_10)
    by (apply widen_age_min; vm_compute; reflexivity).
  split; [exact W | exact (filtered_monotonic _ _ (frame_of clean_csv) W)].
Defined.

(** C1 (as the code has it).  On a frame in which no record has a missing
    (NaN) housing age, median income or rooms-per-household ratio, the
    criteria at their full observed extent select every record: the
    filtered view is the frame itself. *)
Theorem full_extent_filter_is_identity (housing : DataFrame) :
  (forall r, In r (rows housing) ->
     isna (housing_median_age r) = false /\
     isna (median_income r) = false /\
     isna (rooms_per_household r) = false) ->
  filtered (full_extent housing) housing = housing.
Proof.
  intros Hna. rewrite filtered_frame.
  rewrite filter_all; [destruct housing; reflexivity|].
  intros r Hr. destruct (Hna r Hr) as (Ha & Hi & Hp).
  apply keeps_in_range. unfold in_range, full_extent, col. simpl.
  repeat split.
  - apply min_le; [apply (in_map (fun r : HousingRow => housing_median_age r)), Hr | exact Ha].
  - apply max_ge; [apply (in_map (fun r : HousingRow => housing_median_age r)), Hr | exact Ha].
  - apply min_le; [apply (in_map (fun r : HousingRow => median_income r)), Hr | exact Hi].
  - apply max_ge; [apply (in_map (fun r : HousingRow => median_income r)), Hr | exact Hi].
  - apply min_le; [apply (in_map rooms_per_household), Hr | exact Hp].
  - apply max_ge; [apply (in_map rooms_per_household), Hr | exact Hp].
  - apply unique_covers. apply (in_map (fun r : HousingRow => ocean_proximity r)), Hr.
Qed.

(** The rooms-per-household slider of line 35 never reaches above 10,
    whatever the file holds, so the widest setting the sidebar offers is
    narrower than the full observed extent on any file with a larger
    ratio. *)
Remark rph_max_capped (housing : DataFrame) : (rph_max housing <=? 10) = true.
Proof.
  unfold rph_max.
  destruct (pd.max (col rooms_per_household housing) <? 10) eqn:E.
  - apply ltb_leb, E.
  - reflexivity.
Qed.

Example default_criteria_scenario :
  default_criteria (frame_of scenario_csv)
  = Ok (mkCriteria (10, 52) (3, 5) (2, 10) both_labels).
Proof. vm_compute. reflexivity. Qed.

Example default_view_scenario :
  map (fun r : HousingRow => households r)
      (rows (filtered (mkCriteria (10, 52) (3, 5) (2, 10) both_labels)
                      (frame_of scenario_csv)))
  = [2; 4].
Proof. vm_compute. reflexivity. Qed.

Lemma full_extent_filter_is_identity_witness :
  filtered (full_extent (frame_of clean_csv)) (frame_of clean_csv) = frame_of clean_csv.
Proof.
  apply (full_extent_filter_is_identity (frame_of clean_csv)).
  intros r Hr. vm_compute in Hr.
  destruct Hr as [<-|[<-|[<-|[]]]]; vm_compute; auto.
Defined.

(** C1 as stated fails: a block with no rooms and no households has a
    NaN ratio, which no range contains, so the full-extent criteria drop
    it. *)
Lemma full_extent_filter_drops_nan_record :
  load_data zero_cells_csv = Ok (frame_of zero_cells_csv) /\
  length (rows (frame_of zero_cells_csv)) = 3%nat /\
  length (rows (filtered (full_extent (frame_of zero_cells_csv))
                         (frame_of zero_cells_csv))) = 2%nat /\
  filtered (full_extent (frame_of zero_cells_csv)) (frame_of zero_cells_csv)
    <> frame_of zero_cells_csv.
Proof.
  assert (L : length (rows (filtered (full_extent (frame_of zero_cells_csv))
                                     (frame_of zero_cells_csv))) = 2%nat)
    by (vm_compute; reflexivity).
  split; [vm_compute; reflexivity|].
  split; [vm_compute; reflexivity|].
  split; [exact L|].
  intros E. rewrite E in L. clear E. vm_compute in L. discriminate L.
Qed.

(** * Derived columns *)

(** C3 (as the code has it).  Each derived ratio is the binary64 quotient
    of its two source cells: rooms per household is total rooms over
    households, bedrooms per room is total bedrooms over total rooms,
    population per household is population over households.  When the
    divisor cell is zero the ratio is NaN only if the numerator is zero
    or missing, and an infinity otherwise. *)
Theorem derived_ratios_are_quotients (csv : list Row) (housing : DataFrame) :
  load_data csv = Ok housing ->
  map raw (rows housing) = csv /\
  (forall r, In r (rows housing) ->
     rooms_per_household r = total_rooms r / households r /\
     bedrooms_per_room r = total_bedrooms r / total_rooms r /\
     population_per_household r = population r / households r /\
     zero_divisor_rule (total_rooms r) (households r) (rooms_per_household r) /\
     zero_divisor_rule (total_bedrooms r) (total_rooms r) (bedrooms_per_room r) /\
     zero_divisor_rule (population r) (households r) (population_per_household r)).
Proof.
  intros Hload. split.
  - destruct (load_data_ok _ _ Hload) as (_ & _ & ->).
    rewrite map_map. simpl. apply map_id.
  - intros r Hr.
    destruct (load_data_row _ _ _ Hload Hr) as (-> & -> & -> & _).
    do 3 (split; [reflexivity|]).
    split; [exact (div_zero_divisor _ _)|].
    split; exact (div_zero_divisor _ _).
Qed.

Lemma derived_ratios_are_quotients_witness :
  load_data scenario_csv = Ok (frame_of scenario_csv) /\
  map raw (rows (frame_of scenario_csv)) = scenario_csv /\
  (forall r, In r (rows (frame_of scenario_csv)) ->
     rooms_per_household r = total_rooms r / households r /\
     bedrooms_per_room r = total_bedrooms r / total_rooms r /\
     population_per_household r = population r / households r /\
     zero_divisor_rule (total_rooms r) (households r) (rooms_per_household r) /\
     zero_divisor_rule (total_bedrooms r) (total_rooms r) (bedrooms_per_room r) /\
     zero_divisor_rule (population r) (households r) (population_per_household r)).
Proof.
  assert (L : load_data scenario_csv = Ok (frame_of scenario_csv))
    by (vm_compute; reflexivity).
  split; [exact L|].
  exact (derived_ratios_are_quotients scenario_csv (frame_of scenario_csv) L).
Defined.

(** C3 as stated fails on the specification's own scenario (households
    2, 0, 4 and total rooms 4, 5, 8): the middle ratio is stored as
    positive infinity, not as NaN. *)
Lemma zero_households_ratio_is_infinite :
  load_data scenario_csv = Ok (frame_of scenario_csv) /\
  map (fun r : HousingRow => households r) (rows (frame_of scenario_csv)) = [2; 0; 4] /\
  map (fun r : HousingRow => total_rooms r) (rows (frame_of scenario_csv)) = [4; 5; 8] /\
  map rooms_per_household (rows (frame_of scenario_csv)) = [2; infinity; 2] /\
  isna infinity = false.
Proof.
  repeat (split; [vm_compute; reflexivity|]). vm_compute. reflexivity.
Qed.

Lemma age_edges_present (k : nat) : (k <= 10)%nat -> isna (nth k age_edges nan) = false.
Proof.
  intros H. do 11 (destruct k as [|k]; [vm_compute; reflexivity|]). lia.
Qed.

Lemma age_edges_below_last (k : nat) :
  (k <= 10)%nat -> (nth k age_edges nan <=? 50) = true.
Proof.
  intros H. do 11 (destruct k as [|k]; [vm_compute; reflexivity|]). lia.
Qed.

Lemma age_edges_above_first (k : nat) :
  (k <= 10)%nat -> (0 <=? nth k age_edges nan) = true.
Proof.
  intros H. do 11 (destruct k as [|k]; [vm_compute; reflexivity|]). lia.
Qed.

(** The code of an age for the fixed edges 0, 5, ..., 50. *)
Lemma age_code_iff (x : float) (i : nat) :
  pd.cut_code age_edges x = Some i <->
  (i < 10)%nat /\
  (float_of_nat (5 * i) <? x) = true /\
  (x <=? float_of_nat (5 * (i + 1))) = true.
Proof.
  replace (i + 1)%nat with (S i) by lia.
  split.
  - intros H. apply cut_code_sound in H. destruct H as (Hlen & Hlo & _ & Hhi).
    change (length age_edges) with 11%nat in Hlen.
    rewrite age_edges_nth in Hlo by lia.
    rewrite age_edges_nth in Hhi by lia.
    repeat split; [lia | exact Hlo |].
    apply Hhi. rewrite <- age_edges_nth by lia. apply age_edges_present. lia.
  - intros (Hi & Hlo & Hhi). apply cut_code_complete.
    + vm_compute. reflexivity.
    + change (length age_edges) with 11%nat. lia.
    + rewrite age_edges_nth by lia. exact Hlo.
    + rewrite age_edges_nth by lia. exact Hhi.
Qed.

(** C4 (as the code has it).  [age_bin] uses the fixed edges
    0, 5, 10, ..., 50, independent of the data, giving ten bins of width
    5 that are open on the left and closed on the right: a record gets
    bin [i] exactly when [5 i < age <= 5 (i + 1)].  The bins cover
    (0, 50]; a record with age above 50, or with age 0 or less, falls
    outside all bins. *)
Theorem age_bin_right_closed (csv : list Row) (housing : DataFrame) :
  load_data csv = Ok housing ->
  age_bin_edges housing = map (fun k => float_of_nat (5 * k)) (seq 0 11) /\
  length (age_bin_categories housing) = 10%nat /\
  forall r, In r (rows housing) ->
    (forall i,
       age_bin r = Some i <->
       (i < 10)%nat /\
       (float_of_nat (5 * i) <? housing_median_age r) = true /\
       (housing_median_age r <=? float_of_nat (5 * (i + 1))) = true) /\
    ((50 <? housing_median_age r) = true -> age_bin r = None) /\
    ((housing_median_age r <=? 0) = true -> age_bin r = None).
Proof.
  intros Hload. destruct (load_data_ok _ _ Hload) as (_ & Hedges & _).
  split; [exact Hedges|]. split.
  { unfold age_bin_categories. rewrite Hedges. reflexivity. }
  intros r Hr.
  destruct (load_data_row _ _ _ Hload Hr) as (_ & _ & _ & _ & ->).
  split; [intros i; apply age_code_iff|]. split.
  - intros Hbig. destruct (pd.cut_code age_edges (housing_median_age r)) as [i|] eqn:E;
      [|reflexivity].
    apply cut_code_sound in E. destruct E as (Hlen & _ & _ & Hhi).
    change (length age_edges) with 11%nat in Hlen.
    assert (Hle : (housing_median_age r <=? nth (S i) age_edges nan) = true)
      by (apply Hhi, age_edges_present; lia).
    pose proof (leb_trans _ _ _ Hle (age_edges_below_last (S i) ltac:(lia))) as H50.
    apply leb_not_ltb in H50. congruence.
  - intros Hsmall. destruct (pd.cut_code age_edges (housing_median_age r)) as [i|] eqn:E;
      [|reflexivity].
    apply cut_code_sound in E. destruct E as (Hlen & Hlo & _).
    change (length age_edges) with 11%nat in Hlen.
    pose proof (leb_trans _ _ _ Hsmall (age_edges_above_first i ltac:(lia))) as H0.
    apply leb_not_ltb in H0. congruence.
Qed.

Lemma age_bin_right_closed_witness :
  age_bin_edges (frame_of scenario_csv) = map (fun k => float_of_nat (5 * k)) (seq 0 11) /\
  length (age_bin_categories (frame_of scenario_csv)) = 10%nat /\
  forall r, In r (rows (frame_of scenario_csv)) ->
    (forall i,
       age_bin r = Some i <->
       (i < 10)%nat /\
       (float_of_nat (5 * i) <? housing_median_age r) = true /\
       (housing_median_age r <=? float_of_nat (5 * (i + 1))) = true) /\
    ((50 <? housing_median_age r) = true -> age_bin r = None) /\
    ((housing_median_age r <=? 0) = true -> age_bin r = None).
Proof.
  apply (age_bin_right_closed scenario_csv (frame_of scenario_csv)).
  vm_compute. reflexivity.
Defined.

(** C4 as stated fails: a record of age exactly 50 is not outside the
    bins, it is in the last one, (45, 50]; and a record of age 0, inside
    [0, 50), has no bin. *)
Lemma age_fifty_is_binned :
  load_data scenario_csv = Ok (frame_of scenario_csv) /\
  map (fun r : HousingRow => housing_median_age r) (rows (frame_of scenario_csv))
    = [10; 50; 52] /\
  map age_bin (rows (frame_of scenario_csv)) = [Some 1%nat; Some 9%nat; None] /\
  pd.cut_code age_edges 0 = None.
Proof.
  repeat (split; [vm_compute; reflexivity|]). vm_compute. reflexivity.
Qed.

(** The edges of five bins in the ordinary case: the observed minimum
    and maximum differ and a fifth of their distance is not zero. *)
Lemma nbins_edges_explicit (x : list float) (edges : list float) :
  pd.nbins_to_bins x 5 = Ok edges ->
  (pd.min x =? pd.max x) = false ->
  ((pd.max x - pd.min x) / 5 =? 0) = false ->
  edges =
    [ 0 * ((pd.max x - pd.min x) / 5) + pd.min x
        - (pd.max x - pd.min x) * 0x1.0624dd2f1a9fcp-10;
      1 * ((pd.max x - pd.min x) / 5) + pd.min x;
      2 * ((pd.max x - pd.min x) / 5) + pd.min x;
      3 * ((pd.max x - pd.min x) / 5) + pd.min x;
      4 * ((pd.max x - pd.min x) / 5) + pd.min x;
      pd.max x ].
Proof.
  unfold pd.nbins_to_bins. simpl (5 <? 1)%nat. cbv iota.
  destruct x as [|x0 x]; [discriminate|].
  destruct (is_infinity _ || is_infinity _); [discriminate|].
  intros H E W. rewrite E in H. injection H as <-.
  unfold np.linspace.
  change (5 + 1)%nat with 6%nat. change (6 - 1)%nat with 5%nat.
  change (0 <? 5)%nat with true. change (1 <? 6)%nat with true. cbv iota.
  change (float_of_nat 5) with 5.
  rewrite W. reflexivity.
Qed.

(** The edges of five bins when every latitude is the same. *)
Lemma nbins_edges_single (x : list float) (edges : list float) :
  pd.nbins_to_bins x 5 = Ok edges ->
  (pd.min x =? pd.max x) = true ->
  (((pd.max x + widening (pd.max x)) - (pd.min x - widening (pd.min x))) / 5 =? 0) = false ->
  edges = spaced_edges (pd.min x - widening (pd.min x)) (pd.max x + widening (pd.max x)).
Proof.
  unfold pd.nbins_to_bins. simpl (5 <? 1)%nat. cbv iota.
  destruct x as [|x0 x]; [discriminate|].
  destruct (is_infinity _ || is_infinity _); [discriminate|].
  intros H E W. rewrite E in H. injection H as <-.
  unfold np.linspace.
  change (5 + 1)%nat with 6%nat. change (6 - 1)%nat with 5%nat.
  change (0 <? 5)%nat with true. change (1 <? 6)%nat with true. cbv iota.
  change (float_of_nat 5) with 5. unfold widening in W.
  rewrite W. reflexivity.
Qed.

(** C5 (as the code has it).  [lat_bin] has exactly five bins on every
    frame that loads.  Their six edges are computed from the observed
    minimum and maximum latitude of the file.  When the two differ (and
    a fifth of their distance is not rounded to zero) the edges are a
    fifth of the range apart, from the minimum, lowered by 0.1% of the
    range, to the maximum.  When every latitude is the same, the edges
    are equally spaced from that value less 0.1% of its size to that
    value plus 0.1% of its size.  The bins are open on the left and
    closed on the right: a record with bin [i] has its latitude above
    edge [i] and not above edge [i + 1], so a record whose latitude is
    an edge is never in the bin that starts at that edge.  Whenever the
    six edges are increasing, a record has bin [i] exactly when its
    latitude is above edge [i] and at most edge [i + 1]. *)
Theorem lat_bin_five_right_closed (csv : list Row) (housing : DataFrame) :
  load_data csv = Ok housing ->
  let lats := map latitude csv in
  let edges := lat_bin_edges housing in
  pd.nbins_to_bins lats 5 = Ok edges /\
  length edges = 6%nat /\
  length (lat_bin_categories housing) = 5%nat /\
  ((pd.min lats =? pd.max lats) = false ->
   ((pd.max lats - pd.min lats) / 5 =? 0) = false ->
   edges = lower_first (spaced_edges (pd.min lats) (pd.max lats))
                       ((pd.max lats - pd.min lats) * 0x1.0624dd2f1a9fcp-10)) /\
  ((pd.min lats =? pd.max lats) = true ->
   (((pd.max lats + widening (pd.max lats))
     - (pd.min lats - widening (pd.min lats))) / 5 =? 0) = false ->
   edges = spaced_edges (pd.min lats - widening (pd.min lats))
                        (pd.max lats + widening (pd.max lats))) /\
  (forall r i, In r (rows housing) -> lat_bin r = Some i ->
     (i < 5)%nat /\
     (nth i edges nan <? latitude r) = true /\
     (nth (S i) edges nan <? latitude r) = false) /\
  (forall r k, In r (rows housing) -> latitude r = nth k edges nan ->
     lat_bin r <> Some k) /\
  (pd.is_monotonic_increasing edges = true ->
   forall r i, In r (rows housing) ->
     (lat_bin r = Some i <->
      (i < 5)%nat /\
      (nth i edges nan <? latitude r) = true /\
      (latitude r <=? nth (S i) edges nan) = true)).
Proof.
  intros Hload lats edges. subst lats edges.
  destruct (load_data_ok _ _ Hload) as (Hedges & _ & _).
  pose proof (nbins_to_bins_length _ _ _ Hedges) as Hlen. simpl in Hlen.
  split; [exact Hedges|]. split; [exact Hlen|]. split.
  { unfold lat_bin_categories. rewrite intervals_length, Hlen. reflexivity. }
  split; [apply nbins_edges_explicit, Hedges|].
  split; [apply nbins_edges_single, Hedges|].
  assert (Hsound : forall r i, In r (rows housing) -> lat_bin r = Some i ->
            (i < 5)%nat /\
            (nth i (lat_bin_edges housing) nan <? latitude r) = true /\
            (nth (S i) (lat_bin_edges housing) nan <? latitude r) = false /\
            (isna (nth (S i) (lat_bin_edges housing) nan) = false ->
             (latitude r <=? nth (S i) (lat_bin_edges housing) nan) = true)).
  { intros r i Hr Hbin.
    destruct (load_data_row _ _ _ Hload Hr) as (_ & _ & _ & Hlat & _).
    rewrite Hlat in Hbin. apply cut_code_sound in Hbin.
    destruct Hbin as (Hi & Hlo & Hnot & Hhi).
    repeat split; [lia | exact Hlo | exact Hnot | exact Hhi]. }
  split; [|split].
  - intros r i Hr Hbin. destruct (Hsound r i Hr Hbin) as (H1 & H2 & H3 & _). auto.
  - intros r k Hr Hedge Hbin. destruct (Hsound r k Hr Hbin) as (_ & Hlo & _).
    rewrite <- Hedge in Hlo.
    rewrite (leb_not_ltb _ _ (leb_refl _ (ltb_notna_r _ _ Hlo))) in Hlo.
    discriminate Hlo.
  - intros Hmono r i Hr. split.
    + intros Hbin. destruct (Hsound r i Hr Hbin) as (Hi & Hlo & _ & Hhi).
      repeat split; [exact Hi | exact Hlo |].
      apply Hhi. apply (leb_notna_r (nth i (lat_bin_edges housing) nan)).
      apply monotonic_nth; [exact Hmono | lia | lia].
    + intros (Hi & Hlo & Hhi).
      destruct (load_data_row _ _ _ Hload Hr) as (_ & _ & _ & -> & _).
      apply cut_code_complete; [exact Hmono | lia | exact Hlo | exact Hhi].
Qed.

Lemma lat_bin_five_right_closed_witness :
  load_data scenario_csv = Ok (frame_of scenario_csv) /\
  length (lat_bin_edges (frame_of scenario_csv)) = 6%nat /\
  length (lat_bin_categories (frame_of scenario_csv)) = 5%nat /\
  lat_bin_edges (frame_of scenario_csv)
    = [0 * ((5 - 0) / 5) + 0 - (5 - 0) * 0x1.0624dd2f1a9fcp-10; 1; 2; 3; 4; 5] /\
  pd.is_monotonic_increasing (lat_bin_edges (frame_of scenario_csv)) = true /\
  (forall r i, In r (rows (frame_of scenario_csv)) ->
     (lat_bin r = Some i <->
      (i < 5)%nat /\
      (nth i (lat_bin_edges (frame_of scenario_csv)) nan <? latitude r) = true /\
      (latitude r <=? nth (S i) (lat_bin_edges (frame_of scenario_csv)) nan) = true)).
Proof.
  assert (L : load_data scenario_csv = Ok (frame_of scenario_csv))
    by (vm_compute; reflexivity).
  assert (M : pd.is_monotonic_increasing (lat_bin_edges (frame_of scenario_csv)) = true)
    by (vm_compute; reflexivity).
  destruct (lat_bin_five_right_closed scenario_csv (frame_of scenario_csv) L)
    as (_ & H6 & H5 & Hedges & _ & _ & _ & Hiff).
  split; [exact L|]. split; [exact H6|]. split; [exact H5|].
  split; [rewrite Hedges; vm_compute; reflexivity|].
  split; [exact M | exact (Hiff M)].
Defined.

(** With a single latitude the file loads too, on edges spread around
    that latitude. *)
Example lat_bin_edges_single_latitude :
  load_data [record 34 41 880 129 322 126 8 452600 "INLAND"]
  = Ok (frame_of [record 34 41 880 129 322 126 8 452600 "INLAND"]) /\
  lat_bin_edges (frame_of [record 34 41 880 129 322 126 8 452600 "INLAND"])
  = spaced_edges (34 - widening 34) (34 + widening 34) /\
  map lat_bin (rows (frame_of [record 34 41 880 129 322 126 8 452600 "INLAND"]))
  = [Some 2%nat].
Proof. repeat split; vm_compute; reflexivity. Qed.

(** C5 as stated fails: with latitudes 0, 1 and 5 the width is 1 and the
    edges are -0.005, 1, 2, 3, 4, 5.  The record at latitude 1 sits on
    an inner edge; the floor rule puts it in bin 1, the frame has it in
    bin 0. *)
Lemma lat_bin_not_floor_rule :
  load_data scenario_csv = Ok (frame_of scenario_csv) /\
  map (fun r : HousingRow => latitude r) (rows (frame_of scenario_csv)) = [0; 1; 5] /\
  lat_bin_edges (frame_of scenario_csv) = [(0 - (5 - 0) * 0x1.0624dd2f1a9fcp-10); 1; 2; 3; 4; 5] /\
  map lat_bin (rows (frame_of scenario_csv)) = [Some 0%nat; Some 0%nat; Some 4%nat] /\
  map (spec_lat_bin (map latitude scenario_csv)) (map latitude scenario_csv)
    = [Some 0%nat; Some 1%nat; Some 4%nat].
Proof.
  repeat (split; [vm_compute; reflexivity|]). vm_compute. reflexivity.
Qed.

(** * KPI cards on an empty view *)

(** C2 (as the code has it).  On an empty view the three KPI cards of
    lines 53-56 are produced without an error: the two means are NaN and
    are shown as the text "$nan" and "nan", and the row count is shown
    as "0".  There is no separate "no data" state. *)
Theorem empty_view_kpis (view : DataFrame) :
  rows view = [] ->
  isna (pd.mean (col median_house_value view)) = true /\
  isna (pd.mean (col median_income view)) = true /\
  k1_metric view = "$nan"%string /\
  k2_metric view = "nan"%string /\
  k3_metric view = "0"%string.
Proof.
  intros Hrows.
  unfold k1_metric, k2_metric, k3_metric, col. rewrite Hrows. simpl.
  repeat (split; [reflexivity|]). reflexivity.
Qed.

Lemma empty_view_kpis_witness :
  rows empty_view = [] /\
  isna (pd.mean (col median_house_value empty_view)) = true /\
  isna (pd.mean (col median_income empty_view)) = true /\
  k1_metric empty_view = "$nan"%string /\
  k2_metric empty_view = "nan"%string /\
  k3_metric empty_view = "0"%string.
Proof.
  assert (E : rows empty_view = []) by (vm_compute; reflexivity).
  split; [exact E | exact (empty_view_kpis empty_view E)].
Defined.

(** C2 as stated fails: with no label selected the view is empty, and
    the first two cards show the NaN means as "$nan" and "nan". *)
Lemma empty_view_renders_nan :
  load_data clean_csv = Ok (frame_of clean_csv) /\
  empty_view = filtered no_label_criteria (frame_of clean_csv) /\
  rows empty_view = [] /\
  k1_metric empty_view = "$nan"%string /\
  k2_metric empty_view = "nan"%string.
Proof.
  repeat (split; [vm_compute; reflexivity|]). vm_compute. reflexivity.
Qed.

(** * Undefined ratios and the filter *)

(** C10 (as the code has it).  A record of the filtered view never has a
    NaN rooms-per-household ratio, whatever the criteria; so a record
    with no households and no rooms is never in the view.  When both
    bounds of the rooms-per-household range are finite, every record of
    the view has a finite ratio and a nonzero households cell. *)
Theorem filtered_ratio_defined
    (csv : list Row) (housing : DataFrame) (c : Criteria) (r : HousingRow) :
  load_data csv = Ok housing ->
  In r (rows (filtered c housing)) ->
  isna (rooms_per_household r) = false /\
  ((households r =? 0) = true -> (total_rooms r =? 0) = false) /\
  (is_infinity (fst (rph_range c)) = false ->
   is_infinity (snd (rph_range c)) = false ->
   is_infinity (rooms_per_household r) = false /\ (households r =? 0) = false).
Proof.
  intros Hload Hin.
  apply filtered_conjunction_rows in Hin. destruct Hin as [Hr Hk].
  apply keeps_in_range in Hk. destruct Hk as (_ & _ & [Hlo Hhi] & _).
  destruct (load_data_row _ _ _ Hload Hr) as (Hq & _).
  pose proof (div_zero_divisor (total_rooms r) (households r)) as Hz.
  rewrite <- Hq in Hz. unfold zero_divisor_rule in Hz.
  assert (Hna : isna (rooms_per_household r) = false) by (eapply leb_notna_r; exact Hlo).
  split; [exact Hna|]. split.
  - intros H0. destruct (Hz H0) as [Hn _]. rewrite Hna in Hn.
    symmetry in Hn. apply orb_false_iff in Hn. apply Hn.
  - intros Flo Fhi.
    destruct (between_finite _ _ _ Hlo Hhi Flo Fhi) as [_ Hfin].
    split; [exact Hfin|].
    destruct (households r =? 0) eqn:H0; [|reflexivity].
    destruct (Hz eq_refl) as [Hn Hi]. rewrite Hna in Hn. rewrite <- Hn in Hi.
    simpl in Hi. congruence.
Qed.

Lemma filtered_ratio_defined_witness :
  load_data scenario_csv = Ok (frame_of scenario_csv) /\
  In no_household_row (rows (filtered unbounded_criteria (frame_of scenario_csv))) /\
  isna (rooms_per_household no_household_row) = false /\
  ((households no_household_row =? 0) = true ->
   (total_rooms no_household_row =? 0) = false) /\
  (is_infinity (fst (rph_range unbounded_criteria)) = false ->
   is_infinity (snd (rph_range unbounded_criteria)) = false ->
   is_infinity (rooms_per_household no_household_row) = false /\
   (households no_household_row =? 0) = false).
Proof.
  assert (L : load_data scenario_csv = Ok (frame_of scenario_csv))
    by (vm_compute; reflexivity).
  assert (I : In no_household_row
                 (rows (filtered unbounded_criteria (frame_of scenario_csv))))
    by (vm_compute; right; left; reflexivity).
  split; [exact L|]. split; [exact I|].
  exact (filtered_ratio_defined scenario_csv (frame_of scenario_csv)
           unbounded_criteria no_household_row L I).
Defined.

(** C10 as stated fails twice.  A record with households but no rooms
    has ratio 0, which is finite, and stays in the view; and a record
    with rooms but no households has an infinite ratio, which a range
    with an infinite upper bound contains. *)
Lemma zero_rooms_record_is_kept :
  load_data zero_cells_csv = Ok (frame_of zero_cells_csv) /\
  map (fun r : HousingRow => (total_rooms r, households r, rooms_per_household r))
      (rows (filtered capped_criteria (frame_of zero_cells_csv)))
    = [(4, 2, 2); (0, 3, 0)] /\
  load_data scenario_csv = Ok (frame_of scenario_csv) /\
  map (fun r : HousingRow => (total_rooms r, households r, rooms_per_household r))
      (rows (filtered unbounded_criteria (frame_of scenario_csv)))
    = [(4, 2, 2); (5, 0, infinity); (8, 4, 2)].
Proof.
  repeat (split; [vm_compute; reflexivity|]). vm_compute. reflexivity.
Qed.

(** * The correlation matrix *)

(** ** Rounding to binary64: results that stay finite *)

Lemma digits2_size (p : positive) : digits2_pos p = Pos.size p.
Proof. induction p; simpl; congruence. Qed.

Lemma Zdigits2_nonneg (m : Z) : (0 <= Zdigits2 m)%Z.
Proof. destruct m; simpl; lia. Qed.

Lemma Zdigits2_le (m n : Z) : (0 <= m < 2 ^ n)%Z -> (0 <= n)%Z -> (Zdigits2 m <= n)%Z.
Proof.
  intros [H0 Hm] Hn. destruct m as [|p|p]; simpl; [lia | | lia].
  rewrite digits2_size.
  change (Z.pos (Pos.size p)) with (Z.log2 (Z.pos p~0)).
  assert (Z.log2 (Z.pos p~0) < n + 1)%Z; [|lia].
  apply Z.log2_lt_pow2; [lia|].
  rewrite Z.pow_add_r by lia. lia.
Qed.

Lemma shr_1_bounds (r : shr_record) :
  (0 <= shr_m r)%Z -> (0 <= shr_m (shr_1 r) <= shr_m r)%Z.
Proof.
  destruct r as [m b s]. simpl. intros H.
  destruct m as [|[p|p|]|p]; simpl; lia.
Qed.

Lemma iter_pos_bounds (p : positive) : forall (r : shr_record) (M : Z),
  (0 <= shr_m r <= M)%Z -> (0 <= shr_m (iter_pos shr_1 p r) <= M)%Z.
Proof.
  induction p as [p IH|p IH|]; intros r M H; simpl.
  - apply IH, IH. pose proof (shr_1_bounds r). lia.
  - apply IH, IH. exact H.
  - pose proof (shr_1_bounds r). lia.
Qed.

Lemma shr_record_of_loc_m (m : Z) (l : location) : shr_m (shr_record_of_loc m l) = m.
Proof. destruct l as [|[]]; reflexivity. Qed.

Lemma shr_fexp_bounds (m e : Z) (l : location) (D : Z) :
  (0 <= m)%Z -> (Zdigits2 m <= D)%Z ->
  let '(r, e1) := shr_fexp prec emax m e l in
  (0 <= shr_m r <= m)%Z /\ (e1 <= Z.max e (Z.max (D + e - 53) (-1074)))%Z.
Proof.
  intros Hm HD. unfold shr_fexp, shr.
  destruct (fexp prec emax (Zdigits2 m + e) - e)%Z as [|p|p] eqn:E.
  - rewrite shr_record_of_loc_m. lia.
  - split.
    + apply iter_pos_bounds. rewrite shr_record_of_loc_m. lia.
    + unfold fexp, SpecFloat.emin, prec, emax in E. lia.
  - rewrite shr_record_of_loc_m. lia.
Qed.

Lemma round_nearest_even_bounds (m : Z) (l : location) :
  (0 <= m)%Z -> (0 <= round_nearest_even m l <= m + 1)%Z.
Proof.
  intros H. destruct l as [|[]]; simpl; try lia.
  destruct (Z.even m); lia.
Qed.

Lemma binary_round_aux_finite (s : bool) (m e : Z) (l : location) :
  (0 <= m < 2 ^ 54)%Z -> (e <= 1)%Z ->
  sf_finite_or_zero (binary_round_aux prec emax s m e l) = true.
Proof.
  intros Hm He. unfold binary_round_aux.
  pose proof (shr_fexp_bounds m e l 54 (proj1 Hm) (Zdigits2_le m 54 Hm ltac:(lia))) as H1.
  destruct (shr_fexp prec emax m e l) as [r1 e1]. destruct H1 as [Hr1 He1].
  set (m2 := round_nearest_even (shr_m r1) (loc_of_shr_record r1)).
  pose proof (round_nearest_even_bounds (shr_m r1) (loc_of_shr_record r1) (proj1 Hr1)) as Hm2.
  fold m2 in Hm2.
  assert (Hd2 : (Zdigits2 m2 <= 55)%Z).
  { apply Zdigits2_le; [|lia]. split; [lia|].
    change (2 ^ 55)%Z with (2 * 2 ^ 54)%Z. lia. }
  pose proof (shr_fexp_bounds m2 e1 loc_Exact 55 (proj1 Hm2) Hd2) as H2.
  destruct (shr_fexp prec emax m2 e1 loc_Exact) as [r2 e2]. destruct H2 as [Hr2 He2].
  destruct (shr_m r2) as [|p|p] eqn:E; [reflexivity | | lia].
  assert ((e2 <=? emax - prec)%Z = true) as ->; [|reflexivity].
  apply Z.leb_le. unfold emax, prec. lia.
Qed.


Lemma digits2_iter_xO (p : positive) (n : positive) :
  digits2_pos (PosDef.Pos.iter xO p n) = (digits2_pos p + n)%positive.
Proof.
  change (PosDef.Pos.iter xO p n) with (Pos.iter xO p n).
  induction n using Pos.peano_ind.
  - simpl. lia.
  - rewrite Pos.iter_succ. simpl. rewrite IHn. lia.
Qed.

Lemma digits2_lower (p : positive) (d : Z) :
  Z.pos (digits2_pos p) = d -> (2 ^ (d - 1) <= Z.pos p)%Z.
Proof.
  intros <-. rewrite digits2_size.
  pose proof (Pos.size_le p) as H.
  assert (H' : (2 ^ Z.pos (Pos.size p) <= 2 * Z.pos p)%Z).
  { rewrite <- Pos2Z.inj_pow. change (2 * Z.pos p)%Z with (Z.pos p~0). lia. }
  replace (Z.pos (Pos.size p)) with (1 + (Z.pos (Pos.size p) - 1))%Z in H' by lia.
  rewrite Z.pow_add_r in H' by lia. lia.
Qed.

Lemma binary_round_aux_canonical (s : bool) (m : positive) (e : Z) :
  Z.pos (digits2_pos m) = 53%Z -> (-1074 <= e <= 971)%Z ->
  binary_round_aux prec emax s (Z.pos m) e loc_Exact = S754_finite s m e.
Proof.
  intros Hd He. unfold binary_round_aux, shr_fexp.
  cbn [Zdigits2 shr_record_of_loc]. rewrite Hd.
  replace (fexp prec emax (53 + e) - e)%Z with 0%Z
    by (unfold fexp, SpecFloat.emin, prec, emax; lia).
  cbn [shr shr_m loc_of_shr_record round_nearest_even Zdigits2 shr_record_of_loc].
  rewrite Hd.
  replace (fexp prec emax (53 + e) - e)%Z with 0%Z
    by (unfold fexp, SpecFloat.emin, prec, emax; lia).
  cbn [shr shr_m].
  assert ((e <=? emax - prec)%Z = true) as -> by (apply Z.leb_le; unfold emax, prec; lia).
  reflexivity.
Qed.

Lemma count_to_float_spec (k : nat) :
  (1 <= Z.of_nat k < 2 ^ 53)%Z ->
  exists m e, Prim2SF (count_to_float k) = S754_finite false m e /\
              (2 ^ 52 <= Z.pos m)%Z /\ (-52 <= e <= 0)%Z.
Proof.
  intros Hk. unfold count_to_float.
  rewrite of_uint63_spec, Uint63.of_Z_spec.
  rewrite Z.mod_small by (unfold Uint63.wB; simpl; lia).
  destruct (Z.of_nat k) as [|p|p] eqn:E; [lia | | lia].
  unfold binary_normalize, binary_round.
  assert (Hd : (1 <= Z.pos (digits2_pos p) <= 53)%Z).
  { split; [lia|]. apply (Zdigits2_le (Z.pos p) 53); lia. }
  replace (fexp prec emax (Z.pos (digits2_pos p) + 0))%Z
    with (Z.pos (digits2_pos p) - 53)%Z
    by (unfold fexp, SpecFloat.emin, prec, emax; lia).
  unfold shl_align.
  destruct (Z.pos (digits2_pos p) - 53 - 0)%Z as [|q|q] eqn:Es; [ | lia | ].
  - exists p, 0%Z. rewrite binary_round_aux_canonical by lia.
    split; [reflexivity|]. split; [|lia].
    apply (digits2_lower p 53). lia.
  - exists (PosDef.Pos.iter xO p q), (Z.pos (digits2_pos p) - 53)%Z.
    assert (Hq : Z.pos (digits2_pos (PosDef.Pos.iter xO p q)) = 53%Z)
      by (rewrite digits2_iter_xO; lia).
    rewrite binary_round_aux_canonical by (auto; lia).
    split; [reflexivity|]. split; [|lia].
    apply (digits2_lower _ 53). exact Hq.
Qed.

Lemma recip_count_finite (k : nat) :
  (1 <= Z.of_nat k < 2 ^ 53)%Z ->
  sf_finite_or_zero (Prim2SF (1 / count_to_float k)) = true.
Proof.
  intros Hk. destruct (count_to_float_spec k Hk) as (m & e & Hspec & Hm & He).
  rewrite div_spec, Hspec.
  change (Prim2SF 1) with (S754_finite false 4503599627370496 (-52)).
  unfold SF64div, SFdiv, SFdiv_core_binary.
  change (Zdigits2 (Z.pos 4503599627370496)) with 53%Z.
  set (e' := Z.min (fexp prec emax (53 + -52 - (Zdigits2 (Z.pos m) + e))) (-52 - e)).
  set (s := (-52 - e - e')%Z).
  set (m' := match s with
             | 0%Z => Z.pos 4503599627370496
             | Z.pos _ => Z.shiftl (Z.pos 4503599627370496) s
             | Z.neg _ => 0%Z
             end).
  assert (Hd : (Zdigits2 (Z.pos m) <= 53)%Z).
  { pose proof (Prim2SF_valid (count_to_float k)) as V. rewrite Hspec in V.
    simpl in V. unfold bounded, canonical_mantissa in V.
    apply andb_true_iff in V. destruct V as [V _]. apply Z.eqb_eq in V.
    unfold fexp, SpecFloat.emin, prec, emax in V. simpl. lia. }
  assert (He' : (-105 - e <= e' <= -52 - e)%Z).
  { unfold e', fexp, SpecFloat.emin, prec, emax. simpl Zdigits2 in *. lia. }
  assert (Hm' : (0 <= m' <= 2 ^ 105)%Z).
  { unfold m'. destruct s as [|p|p] eqn:Es; [lia | | lia].
    rewrite Z.shiftl_mul_pow2 by lia.
    assert (Z.pos p <= 53)%Z by (unfold s in Es; lia).
    assert (2 ^ Z.pos p <= 2 ^ 53)%Z by (apply Z.pow_le_mono_r; lia).
    change (2 ^ 105)%Z with (4503599627370496 * 2 ^ 53)%Z. lia. }
  destruct (Z.div_eucl m' (Z.pos m)) as [q r] eqn:E.
  assert (Hq : q = (m' / Z.pos m)%Z) by (unfold Z.div; rewrite E; reflexivity).
  apply binary_round_aux_finite; [|lia].
  subst q. split; [apply Z.div_pos; lia|].
  apply Z.div_lt_upper_bound; [lia|].
  assert (2 ^ 105 < Z.pos m * 2 ^ 54)%Z; [|lia].
  change (2 ^ 105)%Z with (2 ^ 52 * 2 ^ 53)%Z.
  assert (2 ^ 52 * 2 ^ 53 <= Z.pos m * 2 ^ 53)%Z by (apply Z.mul_le_mono_nonneg_r; lia).
  change (2 ^ 54)%Z with (2 * 2 ^ 53)%Z. lia.
Qed.


Lemma valid_finite (s : bool) (m : positive) (e : Z) :
  valid_binary (S754_finite s m e) = true ->
  fexp prec emax (Z.pos (digits2_pos m) + e) = e /\ (e <= 971)%Z.
Proof.
  simpl. unfold bounded, canonical_mantissa. intros V.
  apply andb_true_iff in V. destruct V as [V1 V2].
  apply Z.eqb_eq in V1. apply Z.leb_le in V2. unfold emax, prec in V2. split; [exact V1 | lia].
Qed.

Lemma SFmul_one_l (s : bool) (m : positive) (e : Z) :
  valid_binary (S754_finite s m e) = true ->
  SF64mul (S754_finite false 4503599627370496 (-52)) (S754_finite s m e)
  = S754_finite s m e.
Proof.
  intros V. destruct (valid_finite _ _ _ V) as [Hc He].
  unfold SF64mul, SFmul.
  change (Pos.mul 4503599627370496 m) with (PosDef.Pos.iter xO m 52).
  unfold binary_round_aux, shr_fexp.
  cbn [Zdigits2 shr_record_of_loc]. rewrite digits2_iter_xO.
  replace (fexp prec emax (Z.pos (digits2_pos m + 52) + (-52 + e)) - (-52 + e))%Z
    with 52%Z.
  2:{ replace (Z.pos (digits2_pos m + 52) + (-52 + e))%Z
        with (Z.pos (digits2_pos m) + e)%Z by lia.
      rewrite Hc. lia. }
  change (shr {| shr_m := Z.pos (PosDef.Pos.iter xO m 52); shr_r := false; shr_s := false |}
              (-52 + e) 52)
    with ({| shr_m := Z.pos m; shr_r := false; shr_s := false |}, (-52 + e + 52)%Z).
  cbn [shr_m loc_of_shr_record round_nearest_even Zdigits2 shr_record_of_loc].
  replace (-52 + e + 52)%Z with e by lia. rewrite Hc, Z.sub_diag.
  cbn [shr shr_m].
  assert ((e <=? emax - prec)%Z = true) as -> by (apply Z.leb_le; unfold emax, prec; lia).
  reflexivity.
Qed.

Lemma SFsub_self (s : bool) (m : positive) (e : Z) :
  SF64sub (S754_finite s m e) (S754_finite s m e) = S754_zero false.
Proof.
  unfold SF64sub, SFsub. rewrite Z.min_id. unfold shl_align.
  rewrite Z.sub_diag. cbv iota. cbn [fst]. rewrite ?Z.sub_diag. reflexivity.
Qed.

Lemma SFdiv_self (s : bool) (m : positive) (e : Z) :
  SF64div (S754_finite s m e) (S754_finite s m e)
  = S754_finite false 4503599627370496 (-52).
Proof.
  unfold SF64div, SFdiv, SFdiv_core_binary.
  rewrite !Z.sub_diag.
  change (Z.min (fexp prec emax 0) 0) with (-53)%Z.
  change (0 - -53)%Z with 53%Z. cbv iota.
  rewrite Z.shiftl_mul_pow2 by lia.
  destruct (Z.div_eucl (Z.pos m * 2 ^ 53) (Z.pos m)) as [q r] eqn:E.
  assert (Hq : q = (2 ^ 53)%Z).
  { replace q with (Z.pos m * 2 ^ 53 / Z.pos m)%Z by (unfold Z.div; rewrite E; reflexivity).
    rewrite Z.mul_comm. apply Z.div_mul. lia. }
  assert (Hr : r = 0%Z).
  { replace r with ((Z.pos m * 2 ^ 53) mod Z.pos m)%Z
      by (unfold Z.modulo; rewrite E; reflexivity).
    rewrite Z.mul_comm. apply Z.mod_mul. lia. }
  subst q r.
  assert (Hl : new_location (Z.pos m) 0 = loc_Exact).
  { unfold new_location, new_location_even, new_location_odd.
    destruct (Z.even (Z.pos m)); reflexivity. }
  rewrite Hl. destruct s; vm_compute; reflexivity.
Qed.

(** ** Primitive floats *)

Lemma is_finite_spec (x : float) : is_finite x = sf_finite_or_zero (Prim2SF x).
Proof.
  unfold is_finite, is_nan, is_infinity. rewrite !eqb_spec, abs_spec.
  change (Prim2SF infinity) with (S754_infinity false).
  destruct (Prim2SF x) as [s|s| |s m e]; try destruct s; try reflexivity;
    unfold SFeqb, SFcompare, SFabs; rewrite ?Z.compare_refl, ?Pos.compare_cont_refl;
    reflexivity.
Qed.

Lemma eqb_zero_spec (x : float) : (x =? 0) = sf_zero (Prim2SF x).
Proof.
  rewrite eqb_spec. change (Prim2SF 0) with (S754_zero false).
  destruct (Prim2SF x) as [s|s| |s m e]; try destruct s; reflexivity.
Qed.

Lemma finite_nonzero_spec (v : float) :
  is_finite v = true -> (v =? 0) = false ->
  exists s m e, Prim2SF v = S754_finite s m e.
Proof.
  rewrite is_finite_spec, eqb_zero_spec.
  destruct (Prim2SF v) as [s|s| |s m e]; simpl; try discriminate. eauto.
Qed.

Section Arith.

Variable v : float.
Hypothesis Hfin : is_finite v = true.
Hypothesis Hnz : (v =? 0) = false.

Lemma sub_zero_r : v - 0 = v.
Proof.
  destruct (finite_nonzero_spec v Hfin Hnz) as (s & m & e & E).
  apply Prim2SF_inj. rewrite sub_spec, E. reflexivity.
Qed.

Lemma mul_one_l : 1 * v = v.
Proof.
  destruct (finite_nonzero_spec v Hfin Hnz) as (s & m & e & E).
  apply Prim2SF_inj. rewrite mul_spec, E.
  change (Prim2SF 1) with (S754_finite false 4503599627370496 (-52)).
  apply SFmul_one_l. rewrite <- E. apply Prim2SF_valid.
Qed.

Lemma sub_self : v - v = 0.
Proof.
  destruct (finite_nonzero_spec v Hfin Hnz) as (s & m & e & E).
  apply Prim2SF_inj. rewrite sub_spec, E. apply SFsub_self.
Qed.

Lemma div_self : v / v = 1.
Proof.
  destruct (finite_nonzero_spec v Hfin Hnz) as (s & m & e & E).
  apply Prim2SF_inj. rewrite div_spec, E. apply SFdiv_self.
Qed.

Lemma add_zero_l (z : float) : (z =? 0) = true -> z + v = v.
Proof.
  destruct (finite_nonzero_spec v Hfin Hnz) as (s & m & e & E).
  rewrite eqb_zero_spec. intros Hz.
  apply Prim2SF_inj. rewrite add_spec, E.
  destruct (Prim2SF z); try discriminate. reflexivity.
Qed.

Lemma add_zero_r (z : float) : (z =? 0) = true -> v + z = v.
Proof.
  destruct (finite_nonzero_spec v Hfin Hnz) as (s & m & e & E).
  rewrite eqb_zero_spec. intros Hz.
  apply Prim2SF_inj. rewrite add_spec, E.
  destruct (Prim2SF z); try discriminate. reflexivity.
Qed.

End Arith.

Lemma zero_sub_zero (a b : float) :
  (a =? 0) = true -> (b =? 0) = true -> (a - b =? 0) = true.
Proof.
  rewrite !eqb_zero_spec, sub_spec.
  destruct (Prim2SF a) as [[]| | |], (Prim2SF b) as [[]| | |]; try discriminate; reflexivity.
Qed.

Lemma zero_add_zero (a b : float) :
  (a =? 0) = true -> (b =? 0) = true -> (a + b =? 0) = true.
Proof.
  rewrite !eqb_zero_spec, add_spec.
  destruct (Prim2SF a) as [[]| | |], (Prim2SF b) as [[]| | |]; try discriminate; reflexivity.
Qed.

Lemma finite_mul_zero (a b : float) :
  is_finite a = true -> (b =? 0) = true -> (a * b =? 0) = true.
Proof.
  rewrite is_finite_spec, !eqb_zero_spec, mul_spec.
  destruct (Prim2SF a) as [| | |], (Prim2SF b) as [| | |]; try discriminate; reflexivity.
Qed.

Lemma zero_mul_finite (a b : float) :
  (a =? 0) = true -> is_finite b = true -> (a * b =? 0) = true.
Proof.
  rewrite is_finite_spec, !eqb_zero_spec, mul_spec.
  destruct (Prim2SF a) as [| | |], (Prim2SF b) as [| | |]; try discriminate; reflexivity.
Qed.

Lemma zero_is_finite (a : float) : (a =? 0) = true -> is_finite a = true.
Proof.
  rewrite is_finite_spec, eqb_zero_spec. destruct (Prim2SF a); try discriminate; reflexivity.
Qed.

Lemma recip_finite (k : nat) :
  (1 <= Z.of_nat k < 2 ^ 53)%Z -> is_finite (1 / count_to_float k) = true.
Proof. intros H. rewrite is_finite_spec. apply recip_count_finite, H. Qed.

(** The square root of a product with a zero factor is zero or NaN. *)
Lemma sqrt_zero_product (z y : float) :
  (z =? 0) = true ->
  (PrimFloat.sqrt (z * y) =? 0) = true \/ is_nan (PrimFloat.sqrt (z * y)) = true.
Proof.
  unfold is_nan. rewrite !eqb_zero_spec, eqb_spec, sqrt_spec, mul_spec.
  destruct (Prim2SF z) as [sz| | |]; try discriminate. intros _.
  destruct (Prim2SF y) as [sy|sy| |sy my ey]; simpl; auto.
Qed.

Lemma sqrt_product_zero (y z : float) :
  (z =? 0) = true ->
  (PrimFloat.sqrt (y * z) =? 0) = true \/ is_nan (PrimFloat.sqrt (y * z)) = true.
Proof.
  unfold is_nan. rewrite !eqb_zero_spec, eqb_spec, sqrt_spec, mul_spec.
  destruct (Prim2SF z) as [sz| | |]; try discriminate. intros _.
  destruct (Prim2SF y) as [sy|sy| |sy my ey]; simpl; auto.
Qed.

Lemma div_by_nan (a d : float) : is_nan d = true -> is_nan (a / d) = true.
Proof.
  unfold is_nan. rewrite !eqb_spec, div_spec.
  destruct (Prim2SF d) as [sd|sd| |sd md ed] eqn:E; intros H.
  - destruct sd; discriminate H.
  - destruct sd; discriminate H.
  - destruct (Prim2SF a); reflexivity.
  - unfold SFeqb, SFcompare in H.
    rewrite Z.compare_refl, Pos.compare_cont_refl in H. destruct sd; discriminate H.
Qed.


Lemma eqb_zero_trans (a b : float) :
  (a =? b) = true -> (b =? 0) = true -> (a =? 0) = true.
Proof.
  rewrite !eqb_spec. change (Prim2SF 0) with (S754_zero false).
  destruct (Prim2SF a) as [s|s| |s m e], (Prim2SF b) as [s'|s'| |s' m' e'];
    try destruct s; try destruct s'; try discriminate; try reflexivity.
Qed.

Lemma eqb_nonzero_eq (a b : float) :
  (a =? b) = true -> (b =? 0) = false -> a = b.
Proof.
  intros H Hz. apply Prim2SF_inj. revert H Hz.
  rewrite !eqb_spec. change (Prim2SF 0) with (S754_zero false).
  unfold SFeqb, SFcompare.
  destruct (Prim2SF a) as [s|s| |s m e], (Prim2SF b) as [s'|s'| |s' m' e'];
    try destruct s; try destruct s'; try discriminate; try reflexivity; intros H _;
    destruct (Z.compare_spec e e') as [E|E|E]; try discriminate H; subst e';
    change (PosDef.Pos.compare_cont Eq m m') with (Pos.compare m m') in H;
    destruct (Pos.compare_spec m m') as [E|E|E]; try discriminate H; subst m'; reflexivity.
Qed.


Section Welford.

Import algos.


Lemma settled_step (v : float) (n : nat) (mean ssq : float) :
  (Z.of_nat (S n) < 2 ^ 53)%Z ->
  is_finite v = true ->
  settled v n mean ssq ->
  settled v (S n)
          (mean + 1 / count_to_float (S n) * (v - mean))
          (ssq + (v - (mean + 1 / count_to_float (S n) * (v - mean))) * (v - mean)).
Proof.
  intros Hk Fx [Hss Hm].
  assert (Hr : is_finite (1 / count_to_float (S n)) = true)
    by (apply recip_finite; lia).
  destruct Hm as [[Hz Hmz]|(Hnz & H0 & H1)].
  - assert (Hdx : (v - mean =? 0) = true) by (apply zero_sub_zero; assumption).
    assert (Hmx : (mean + 1 / count_to_float (S n) * (v - mean) =? 0) = true).
    { apply zero_add_zero; [assumption|]. apply finite_mul_zero; assumption. }
    split.
    + apply zero_add_zero; [assumption|].
      apply zero_mul_finite; [|apply zero_is_finite; assumption].
      apply zero_sub_zero; assumption.
    + left. split; assumption.
  - destruct n as [|k].
    + rewrite (H0 eq_refl).
      change (1 / count_to_float 1) with 1.
      rewrite (sub_zero_r v Fx Hnz), (mul_one_l v Fx Hnz).
      assert (E0 : 0 + v = v) by (apply add_zero_l; auto; reflexivity).
      rewrite E0, (sub_self v Fx Hnz).
      split.
      * apply zero_add_zero; [assumption|].
        apply zero_mul_finite; [reflexivity | assumption].
      * right. split; [assumption|]. split; [discriminate | reflexivity].
    + rewrite (H1 ltac:(discriminate)), (sub_self v Fx Hnz).
      assert (Hz : (1 / count_to_float (S (S k)) * 0 =? 0) = true)
        by (apply finite_mul_zero; [assumption | reflexivity]).
      rewrite (add_zero_r v Fx Hnz _ Hz), (sub_self v Fx Hnz).
      split.
      * apply zero_add_zero; [assumption | reflexivity].
      * right. split; [assumption|]. split; [discriminate | reflexivity].
Qed.

Lemma settled_step_eqb (v vx : float) (n : nat) (mean ssq : float) :
  (Z.of_nat (S n) < 2 ^ 53)%Z ->
  is_finite vx = true -> (vx =? v) = true ->
  settled v n mean ssq ->
  settled v (S n)
          (mean + 1 / count_to_float (S n) * (vx - mean))
          (ssq + (vx - (mean + 1 / count_to_float (S n) * (vx - mean))) * (vx - mean)).
Proof.
  intros Hk Fx He Hs. destruct (v =? 0) eqn:Hz.
  - assert (Hx : (vx =? 0) = true) by (apply (eqb_zero_trans vx v); assumption).
    assert (Hs' : settled vx n mean ssq).
    { destruct Hs as [A [[_ B]|[C _]]]; [|congruence].
      split; [exact A|]. left. split; assumption. }
    destruct (settled_step vx n mean ssq Hk Fx Hs') as [A [[_ B]|[C _]]]; [|congruence].
    split; [exact A|]. left. split; assumption.
  - assert (E : vx = v) by (apply eqb_nonzero_eq; assumption). subst vx.
    apply settled_step; assumption.
Qed.

Lemma observe_nobs (w : Welford) (vx vy : float) :
  (nobs w <= nobs (observe w vx vy) <= S (nobs w))%nat /\
  (nobs (observe w vx vy) = nobs w -> observe w vx vy = w).
Proof.
  unfold observe. destruct (is_finite vx && is_finite vy); simpl; split; try lia; auto.
Qed.

Lemma run_nobs (x : list float) : forall (y : list float) (w : Welford),
  (nobs w <= nobs (run w x y) <= nobs w + length x)%nat /\
  (nobs (run w x y) = nobs w -> run w x y = w).
Proof.
  induction x as [|vx x IH]; intros y w; simpl; [split; [lia | auto]|].
  destruct y as [|vy y]; [split; [lia | auto]|].
  destruct (IH y (observe w vx vy)) as [Hb He].
  destruct (observe_nobs w vx vy) as [Ho Hoe].
  split; [lia|].
  intros E. assert (E1 : nobs (observe w vx vy) = nobs w) by lia.
  rewrite He by lia. apply Hoe, E1.
Qed.

Lemma run_settled_x (v : float) (x : list float) : forall (y : list float) (w : Welford),
  (Z.of_nat (nobs w + length x) < 2 ^ 53)%Z ->
  (forall vx, In vx x -> is_finite vx = true -> (vx =? v) = true) ->
  settled v (nobs w) (meanx w) (ssqdm_x w) ->
  settled v (nobs (run w x y)) (meanx (run w x y)) (ssqdm_x (run w x y)).
Proof.
  induction x as [|vx x IH]; intros y w Hk Hv Hs; simpl; [exact Hs|].
  destruct y as [|vy y]; [exact Hs|].
  cbn [length] in Hk. apply IH.
  - destruct (observe_nobs w vx vy) as [Ho _]. lia.
  - intros vx' Hin. apply Hv. right; exact Hin.
  - unfold observe. destruct (is_finite vx) eqn:Fx; [|exact Hs].
    destruct (is_finite vy) eqn:Fy; [|exact Hs].
    simpl andb. cbv iota. cbn [nobs meanx ssqdm_x].
    apply settled_step_eqb;
      [lia | exact Fx | exact (Hv vx (or_introl eq_refl) Fx) | exact Hs].
Qed.

Lemma run_settled_y (v : float) (x : list float) : forall (y : list float) (w : Welford),
  (Z.of_nat (nobs w + length y) < 2 ^ 53)%Z ->
  (forall vy, In vy y -> is_finite vy = true -> (vy =? v) = true) ->
  settled v (nobs w) (meany w) (ssqdm_y w) ->
  settled v (nobs (run w x y)) (meany (run w x y)) (ssqdm_y (run w x y)).
Proof.
  induction x as [|vx x IH]; intros y w Hk Hv Hs; simpl; [exact Hs|].
  destruct y as [|vy y]; [exact Hs|].
  cbn [length] in Hk. apply IH.
  - destruct (observe_nobs w vx vy) as [Ho _]. lia.
  - intros vy' Hin. apply Hv. right; exact Hin.
  - unfold observe. destruct (is_finite vx) eqn:Fx; [|exact Hs].
    destruct (is_finite vy) eqn:Fy; [|exact Hs].
    simpl andb. cbv iota. cbn [nobs meany ssqdm_y].
    apply settled_step_eqb;
      [lia | exact Fy | exact (Hv vy (or_introl eq_refl) Fy) | exact Hs].
Qed.

Lemma settled_start (v : float) : settled v 0 0 0.
Proof.
  split; [reflexivity|].
  destruct (v =? 0) eqn:E; [left; split; reflexivity|].
  right. split; [reflexivity|]. split; [reflexivity | intros H; contradiction].
Qed.

Lemma clip_nan (clipped : bool) (x : float) : is_nan x = true -> is_nan (clip clipped x) = true.
Proof.
  intros H. unfold clip. destruct clipped; [|exact H].
  assert (H1 : (1 <? x) = false).
  { revert H. unfold is_nan. rewrite eqb_spec, ltb_spec.
    change (Prim2SF 1) with (S754_finite false 4503599627370496 (-52)).
    destruct (Prim2SF x) as [s|s| |s m e]; try destruct s; try discriminate; try reflexivity;
      unfold SFeqb, SFcompare; rewrite Z.compare_refl, Pos.compare_cont_refl; discriminate. }
  assert (H2 : (x <? -1) = false).
  { revert H. unfold is_nan. rewrite eqb_spec, ltb_spec.
    destruct (Prim2SF x) as [s|s| |s m e]; try destruct s; try discriminate; try reflexivity;
      unfold SFeqb, SFcompare; rewrite Z.compare_refl, Pos.compare_cont_refl; discriminate. }
  rewrite H1, H2. exact H.
Qed.

Lemma nan_is_not_zero (d : float) : is_nan d = true -> (d =? 0) = false.
Proof.
  unfold is_nan. rewrite !eqb_spec. change (Prim2SF 0) with (S754_zero false).
  destruct (Prim2SF d) as [s|s| |s m e]; try destruct s; try discriminate; reflexivity.
Qed.

(** A zero sum of squared deviations on either side makes the
    coefficient NaN. *)
Lemma pearson_zero_variance (clipped : bool) (minp : nat) (x y : list float) :
  (ssqdm_x (run start x y) =? 0) = true \/ (ssqdm_y (run start x y) =? 0) = true ->
  is_nan (pearson clipped minp x y) = true.
Proof.
  intros H. unfold pearson.
  destruct (nobs (run start x y) <? minp)%nat; [reflexivity|].
  assert (Hd : (PrimFloat.sqrt (ssqdm_x (run start x y) * ssqdm_y (run start x y)) =? 0) = true
               \/ is_nan (PrimFloat.sqrt (ssqdm_x (run start x y) * ssqdm_y (run start x y)))
                  = true).
  { destruct H as [H|H]; [apply sqrt_zero_product | apply sqrt_product_zero]; exact H. }
  destruct Hd as [Hd|Hd].
  - rewrite Hd. reflexivity.
  - rewrite (nan_is_not_zero _ Hd). simpl negb. cbv iota.
    apply clip_nan, div_by_nan, Hd.
Qed.

(** On the diagonal the three sums coincide. *)
Lemma run_diagonal (x : list float) : forall w : Welford,
  meanx w = meany w -> ssqdm_x w = ssqdm_y w -> covxy w = ssqdm_x w ->
  let w' := run w x x in
  meanx w' = meany w' /\ ssqdm_x w' = ssqdm_y w' /\ covxy w' = ssqdm_x w'.
Proof.
  induction x as [|vx x IH]; intros w H1 H2 H3; simpl; [auto|].
  apply IH; unfold observe; destruct (is_finite vx && is_finite vx); simpl;
    rewrite ?H3, ?H2, ?H1; reflexivity.
Qed.

Lemma pearson_diagonal (clipped : bool) (x : list float) :
  let s := ssqdm_x (run start x x) in
  is_finite s = true -> (s =? 0) = false -> PrimFloat.sqrt (s * s) = s ->
  pearson clipped 1 x x = 1.
Proof.
  intros s Fs Hnz Hsq. unfold pearson.
  destruct (run_diagonal x start eq_refl eq_refl eq_refl) as (_ & Hy & Hc).
  fold s in Hy, Hc. rewrite <- Hy, Hc. fold s. rewrite Hsq, Hnz.
  destruct (nobs (run start x x)) as [|k] eqn:En.
  - destruct (run_nobs x x start) as [_ He].
    assert (E : run start x x = start) by (apply He; exact En).
    unfold s in Hnz. rewrite E in Hnz. discriminate Hnz.
  - simpl. rewrite (div_self s Fs Hnz). destruct clipped; reflexivity.
Qed.

Lemma pearson_constant_x (clipped : bool) (minp : nat) (v : float) (x y : list float) :
  (Z.of_nat (length x) < 2 ^ 53)%Z ->
  (forall vx, In vx x -> is_finite vx = true -> (vx =? v) = true) ->
  is_nan (pearson clipped minp x y) = true.
Proof.
  intros Hk Hv. apply pearson_zero_variance. left.
  apply (run_settled_x v x y start Hk Hv (settled_start v)).
Qed.

Lemma pearson_constant_y (clipped : bool) (minp : nat) (v : float) (x y : list float) :
  (Z.of_nat (length y) < 2 ^ 53)%Z ->
  (forall vy, In vy y -> is_finite vy = true -> (vy =? v) = true) ->
  is_nan (pearson clipped minp x y) = true.
Proof.
  intros Hk Hv. apply pearson_zero_variance. right.
  apply (run_settled_y v x y start Hk Hv (settled_start v)).
Qed.

End Welford.

(** ** The matrix of the view *)

Section CorrFacts.

Variables (clipped : bool) (view : DataFrame).

Lemma num_matrix_length : length (num_matrix view) = 10%nat.
Proof. reflexivity. Qed.

Lemma num_matrix_nth (i : nat) (f : HousingRow -> float) :
  nth_error num_cols i = Some f ->
  (i < 10)%nat /\ nth i (num_matrix view) [] = col f view.
Proof.
  intros H. split.
  - change 10%nat with (length num_cols). apply nth_error_Some. congruence.
  - apply nth_error_nth. unfold num_matrix.
    apply (map_nth_error (fun f => col f view)), H.
Qed.

Lemma corr_row (i : nat) :
  (i < 10)%nat ->
  nth i (corr clipped view) [] =
  map (fun yi => algos.pearson clipped 1 (nth (Nat.max i yi) (num_matrix view) [])
                                         (nth (Nat.min i yi) (num_matrix view) []))
      (seq 0 10).
Proof.
  intros Hi. unfold corr, algos.nancorr. rewrite num_matrix_length.
  set (F := fun xi : nat => map _ (seq 0 10)).
  rewrite (nth_indep _ [] (F 0%nat)) by (rewrite length_map, length_seq; exact Hi).
  rewrite map_nth, seq_nth by exact Hi. reflexivity.
Qed.

Lemma corr_at_eq (i j : nat) :
  (i < 10)%nat -> (j < 10)%nat ->
  corr_at clipped view i j =
  algos.pearson clipped 1 (nth (Nat.max i j) (num_matrix view) [])
                          (nth (Nat.min i j) (num_matrix view) []).
Proof.
  intros Hi Hj. unfold corr_at. rewrite (corr_row i Hi).
  set (G := fun yi : nat => algos.pearson _ _ _ _).
  rewrite (nth_indep _ nan (G 0%nat)) by (rewrite length_map, length_seq; exact Hj).
  rewrite map_nth, seq_nth by exact Hj. reflexivity.
Qed.

Lemma corr_length : length (corr clipped view) = 10%nat.
Proof.
  unfold corr, algos.nancorr. rewrite length_map, length_seq. reflexivity.
Qed.

Lemma corr_at_outside (i j : nat) :
  (10 <= i)%nat \/ (10 <= j)%nat -> corr_at clipped view i j = nan.
Proof.
  intros H. unfold corr_at.
  destruct (Nat.lt_ge_cases i 10) as [Hi|Hi].
  - rewrite (corr_row i Hi). apply nth_overflow.
    rewrite length_map, length_seq. destruct H as [H|H]; lia.
  - rewrite (nth_overflow (corr clipped view) []) by (rewrite corr_length; exact Hi).
    destruct j; reflexivity.
Qed.

Lemma corr_at_sym (i j : nat) : corr_at clipped view i j = corr_at clipped view j i.
Proof.
  destruct (Nat.lt_ge_cases i 10) as [Hi|Hi]; [destruct (Nat.lt_ge_cases j 10) as [Hj|Hj]|].
  - rewrite (corr_at_eq i j Hi Hj), (corr_at_eq j i Hj Hi), Nat.max_comm, Nat.min_comm.
    reflexivity.
  - rewrite !corr_at_outside by (left + right; exact Hj). reflexivity.
  - rewrite !corr_at_outside by (left + right; exact Hi). reflexivity.
Qed.

Lemma all_finite_equal_In (v : float) (s : list float) :
  all_finite_equal v s = true ->
  forall x, In x s -> is_finite x = true -> (x =? v) = true.
Proof.
  unfold all_finite_equal. rewrite forallb_forall. intros H x Hin Fx.
  specialize (H x Hin). rewrite Fx in H. exact H.
Qed.

Lemma corr_at_zero_variance (i j : nat) (f : HousingRow -> float) (v : float) :
  nth_error num_cols i = Some f ->
  (Z.of_nat (length (rows view)) < 2 ^ 53)%Z ->
  all_finite_equal v (col f view) = true ->
  (j < 10)%nat ->
  isna (corr_at clipped view i j) = true.
Proof.
  intros Hf Hk Hv Hj. destruct (num_matrix_nth i f Hf) as [Hi Hc].
  rewrite (corr_at_eq i j Hi Hj). unfold isna.
  assert (Hlen : (Z.of_nat (length (col f view)) < 2 ^ 53)%Z)
    by (unfold col; rewrite length_map; exact Hk).
  destruct (Nat.le_gt_cases i j) as [L|L].
  - rewrite (Nat.min_l i j L), Hc.
    apply (pearson_constant_y clipped 1 v); [exact Hlen | apply all_finite_equal_In, Hv].
  - rewrite (Nat.max_l i j) by lia. rewrite Hc.
    apply (pearson_constant_x clipped 1 v); [exact Hlen | apply all_finite_equal_In, Hv].
Qed.

Lemma corr_at_diagonal (i : nat) (f : HousingRow -> float) :
  nth_error num_cols i = Some f ->
  is_finite (sum_sq_dev (col f view)) = true ->
  (sum_sq_dev (col f view) =? 0) = false ->
  PrimFloat.sqrt (sum_sq_dev (col f view) * sum_sq_dev (col f view))
  = sum_sq_dev (col f view) ->
  corr_at clipped view i i = 1.
Proof.
  intros Hf Fs Hnz Hsq. destruct (num_matrix_nth i f Hf) as [Hi Hc].
  rewrite (corr_at_eq i i Hi Hi), Nat.max_id, Nat.min_id, Hc.
  apply pearson_diagonal; assumption.
Qed.

End CorrFacts.

(** C7 (as the code has it).  [filtered[num_cols].corr()] has ten rows
    and is symmetric, NaN entries included.  The diagonal entry of a
    column is exactly 1.0 whenever the sum [s] of squared deviations
    accumulated for it is finite, nonzero and satisfies
    [sqrt (s * s) = s] in binary64.  When every finite cell of a column
    has the same value (zero variance; a column with no finite cell
    included) and the view has fewer than 2^53 rows, every entry of its
    row and of its column, the diagonal one too, is NaN: the call does
    not fail.  All of this holds with and without the clamping of
    recent library versions. *)
Theorem corr_symmetric_nan_on_zero_variance (clipped : bool) (view : DataFrame) :
  length (corr clipped view) = 10%nat /\
  (forall i j, corr_at clipped view i j = corr_at clipped view j i) /\
  (forall i f,
     nth_error num_cols i = Some f ->
     is_finite (sum_sq_dev (col f view)) = true ->
     (sum_sq_dev (col f view) =? 0) = false ->
     PrimFloat.sqrt (sum_sq_dev (col f view) * sum_sq_dev (col f view))
     = sum_sq_dev (col f view) ->
     corr_at clipped view i i = 1) /\
  (forall i f v,
     nth_error num_cols i = Some f ->
     (Z.of_nat (length (rows view)) < 2 ^ 53)%Z ->
     all_finite_equal v (col f view) = true ->
     forall j, (j < 10)%nat ->
       isna (corr_at clipped view i j) = true /\
       isna (corr_at clipped view j i) = true).
Proof.
  split; [apply corr_length|].
  split; [apply corr_at_sym|].
  split; [apply corr_at_diagonal|].
  intros i f v Hf Hk Hv j Hj.
  assert (H : isna (corr_at clipped view i j) = true)
    by (apply (corr_at_zero_variance clipped view i j f v); assumption).
  split; [exact H|]. rewrite corr_at_sym. exact H.
Qed.

(** On the scenario's view the house values (column 0) have a unit
    diagonal entry and the constant population (column 4) has NaN
    entries. *)
Lemma corr_symmetric_nan_on_zero_variance_witness :
  corr_at true scenario_view 0 0 = 1 /\
  isna (corr_at true scenario_view 4 0) = true /\
  isna (corr_at true scenario_view 0 4) = true.
Proof.
  destruct (corr_symmetric_nan_on_zero_variance true scenario_view)
    as (_ & _ & Hd & Hz).
  split.
  - apply (Hd 0%nat (fun r : HousingRow => median_house_value r));
      vm_compute; reflexivity.
  - apply (Hz 4%nat (fun r : HousingRow => population r) 10);
      [reflexivity | vm_compute; reflexivity | vm_compute; reflexivity | lia].
Defined.

(** Every column of the view has two different values, yet the diagonal
    entry of bedrooms_per_room is NaN: its cells are 1/0 = infinity,
    0.25 and 0.25, and the infinite one is masked out. *)
Lemma corr_diagonal_is_nan :
  load_data no_rooms_csv = Ok (frame_of no_rooms_csv) /\
  length (rows no_rooms_view) = 3%nat /\
  col bedrooms_per_room no_rooms_view = [infinity; 0.25; 0.25] /\
  forallb (fun f => two_distinct (col f no_rooms_view)) num_cols = true /\
  (forall clipped, isna (corr_at clipped no_rooms_view 8 8) = true) /\
  (forall clipped,
     map (fun i => corr_at clipped no_rooms_view i i =? 1) (seq 0 10) =
     [true; true; true; true; true; true; true; true; false; true]).
Proof.
  split; [vm_compute; reflexivity|].
  split; [vm_compute; reflexivity|].
  split; [vm_compute; reflexivity|].
  split; [vm_compute; reflexivity|].
  split; intros []; vm_compute; reflexivity.
Qed.

(** * Further properties of the script *)

(** ** Composing and emptying the filter *)

Section FilterAlgebra.

Lemma filter_filter {A : Type} (p q : A -> bool) (l : list A) :
  filter p (filter q l) = filter (fun x => q x && p x) l.
Proof.
  induction l as [|x l IH]; simpl; [reflexivity|].
  destruct (q x); simpl; [destruct (p x)|]; rewrite IH; reflexivity.
Qed.

Lemma in_range_not_empty (range : float * float) (x : float) :
  in_range range x -> ~ empty_range range.
Proof.
  intros [Hlo Hhi] [H|[H|H]].
  - rewrite (leb_notna_l _ _ Hlo) in H. discriminate.
  - rewrite (leb_notna_r _ _ Hhi) in H. discriminate.
  - rewrite (leb_not_ltb _ _ (leb_trans _ _ _ Hlo Hhi)) in H. discriminate.
Qed.

End FilterAlgebra.

(** Two filters applied one after the other do not depend on their
    order, and select the records that meet both sets of criteria. *)
Theorem filtered_commutes (c1 c2 : Criteria) (housing : DataFrame) :
  filtered c1 (filtered c2 housing) = filtered c2 (filtered c1 housing) /\
  rows (filtered c1 (filtered c2 housing))
    = filter (both_criteria_keep c1 c2) (rows housing).
Proof.
  rewrite !filtered_frame. simpl. rewrite !filter_filter. split.
  - f_equal. apply filter_ext. intros r. apply andb_comm.
  - apply filter_ext. intros r. unfold both_criteria_keep. apply andb_comm.
Qed.

(** Criteria with a missing bound, with a range whose maximum is below its
    minimum, or with no label selected leave no record: the view is
    empty, whatever the frame. *)
Theorem filtered_unsatisfiable_is_empty (c : Criteria) (housing : DataFrame) :
  unsatisfiable c -> rows (filtered c housing) = [].
Proof.
  intros U. rewrite filtered_rows.
  destruct (filter (keeps c) (rows housing)) as [|r l] eqn:E; [reflexivity|].
  assert (Hr : In r (filter (keeps c) (rows housing))) by (rewrite E; left; reflexivity).
  apply filter_In in Hr. destruct Hr as [_ Hk].
  apply keeps_in_range in Hk. destruct Hk as (Ha & Hi & Hp & Ho).
  destruct U as [U|[U|[U|U]]].
  - destruct (in_range_not_empty _ _ Ha U).
  - destruct (in_range_not_empty _ _ Hi U).
  - destruct (in_range_not_empty _ _ Hp U).
  - rewrite U in Ho. destruct Ho.
Qed.

Lemma filtered_unsatisfiable_is_empty_witness :
  unsatisfiable no_label_criteria /\
  rows (filtered no_label_criteria (frame_of clean_csv)) = [].
Proof.
  assert (U : unsatisfiable no_label_criteria) by (do 3 right; reflexivity).
  split; [exact U | exact (filtered_unsatisfiable_is_empty _ (frame_of clean_csv) U)].
Defined.

(** ** Distinct labels and the box-plot groups *)

Section Groups.

Lemma unique_from_sound (s : list label) : forall seen x,
  In x (pd.unique_from seen s) -> In x s /\ ~ In x seen.
Proof.
  induction s as [|y ys IH]; simpl; intros seen x H; [destruct H|].
  destruct (existsb (same_label y) seen) eqn:E.
  - destruct (IH _ _ H) as [H1 H2]. auto.
  - destruct H as [<-|H].
    + split; [left; reflexivity|].
      intros Hin. assert (existsb (same_label y) seen = true); [|congruence].
      apply existsb_exists. exists y. split; [exact Hin | apply same_label_refl].
    + destruct (IH _ _ H) as [H1 H2]. split; [right; exact H1|].
      intros Hin. apply H2. right; exact Hin.
Qed.

Lemma unique_from_NoDup (s : list label) : forall seen,
  NoDup (pd.unique_from seen s).
Proof.
  induction s as [|y ys IH]; simpl; intros seen; [constructor|].
  destruct (existsb (same_label y) seen); [apply IH|].
  constructor; [|apply IH].
  intros H. apply unique_from_sound in H. destruct H as [_ H]. apply H. left; reflexivity.
Qed.

Lemma boolean_index_map {A : Type} (p : A -> bool) (l : list A) :
  pd.boolean_index l (map p l) = filter p l.
Proof.
  induction l as [|x l IH]; simpl; [reflexivity|].
  rewrite IH. reflexivity.
Qed.

Lemma filter_none {A : Type} (p : A -> bool) (l : list A) :
  (forall x, In x l -> p x = false) -> filter p l = [].
Proof.
  induction l as [|x l IH]; simpl; intros H; [reflexivity|].
  rewrite (H x (or_introl eq_refl)). apply IH. intros y Hy. apply H. right; exact Hy.
Qed.

Lemma filter_split_perm {A : Type} (p : A -> bool) (l : list A) :
  Permutation (filter p l ++ filter (fun x => negb (p x)) l) l.
Proof.
  induction l as [|x l IH]; simpl; [constructor|].
  destruct (p x); simpl.
  - constructor. exact IH.
  - symmetry. apply Permutation_cons_app. symmetry. exact IH.
Qed.

Lemma label_equals_true (a b : label) :
  label_equals a b = true <-> a = b /\ a <> None.
Proof.
  destruct a as [x|], b as [y|]; simpl; split; try discriminate.
  - intros H. apply String.eqb_eq in H. subst. split; [reflexivity | discriminate].
  - intros [H _]. injection H as ->. apply String.eqb_refl.
  - intros [H _]. discriminate H.
  - intros [_ H]. contradiction.
  - intros [_ H]. contradiction.
Qed.

(** Grouping labelled items by distinct keys that cover their labels
    rearranges them. *)
Lemma group_by_keys_perm {A : Type} (f : A -> label) (keys : list label) :
  NoDup keys -> forall l : list A,
  (forall x, In x l -> f x <> None /\ In (f x) keys) ->
  Permutation (concat (map (fun k => filter (fun x => label_equals (f x) k) l) keys)) l.
Proof.
  induction 1 as [|k ks Hk Hnd IH]; intros l Hcov; simpl.
  - destruct l as [|x l]; [constructor|].
    destruct (Hcov x (or_introl eq_refl)) as [_ []].
  - eapply Permutation_trans; [|apply (filter_split_perm (fun x => label_equals (f x) k))].
    apply Permutation_app_head.
    set (l' := filter (fun x => negb (label_equals (f x) k)) l).
    assert (Hsame : map (fun k' => filter (fun x => label_equals (f x) k') l) ks
                    = map (fun k' => filter (fun x => label_equals (f x) k') l') ks).
    { apply map_ext_in. intros k' Hk'. unfold l'. rewrite filter_filter.
      apply filter_ext. intros x.
      destruct (label_equals (f x) k') eqn:E'; [|symmetry; apply andb_false_r].
      apply label_equals_true in E'. destruct E' as [E' _].
      destruct (label_equals (f x) k) eqn:E; [|reflexivity].
      apply label_equals_true in E. destruct E as [E _].
      exfalso. apply Hk. rewrite <- E, E'. exact Hk'. }
    rewrite Hsame. apply IH.
    intros x Hx. unfold l' in Hx. apply filter_In in Hx. destruct Hx as [Hx Hne].
    destruct (Hcov x Hx) as [Hsome [E|Hin]]; [|split; assumption].
    assert (label_equals (f x) k = true) by (apply label_equals_true; auto).
    rewrite H in Hne. discriminate Hne.
Qed.

End Groups.

(** The labels offered by the multiselect are the labels of the file,
    each once; with all of them selected, no record fails the label
    test. *)
Theorem ocean_options_distinct_complete (housing : DataFrame) :
  NoDup (ocean_options housing) /\
  (forall x, In x (ocean_options housing) <->
             exists r, In r (rows housing) /\ ocean_proximity r = x) /\
  pd.isin (col ocean_proximity housing) (ocean_options housing)
    = map (fun _ => true) (rows housing).
Proof.
  unfold ocean_options, pd.unique, col. split; [apply unique_from_NoDup|]. split.
  - intros x. split.
    + intros H. apply unique_from_sound in H. destruct H as [H _].
      apply in_map_iff in H. destruct H as [r [E Hr]]. exists r. auto.
    + intros [r [Hr <-]]. apply unique_covers.
      apply (in_map (fun r : HousingRow => ocean_proximity r)), Hr.
  - unfold pd.isin. rewrite map_map. apply map_ext_in. intros r Hr.
    apply existsb_exists. exists (ocean_proximity r). split; [|apply same_label_refl].
    apply unique_covers. apply (in_map (fun r : HousingRow => ocean_proximity r)), Hr.
Qed.

(** Tab 4: the box plot gets one group per distinct label of the view,
    the missing label included when a record lacks one.  The group of
    the missing label is empty and every other group is not; the groups
    together hold the house value of every labelled record of the view
    exactly once, and of no unlabelled one. *)
Theorem ocean_box_data_partitions (view : DataFrame) :
  map fst (ocean_box_data view) = pd.unique (col ocean_proximity view) /\
  NoDup (map fst (ocean_box_data view)) /\
  (forall c g, In (c, g) (ocean_box_data view) -> (g = [] <-> c = None)) /\
  Permutation (concat (map snd (ocean_box_data view)))
              (map (fun r : HousingRow => median_house_value r)
                   (filter has_label (rows view))).
Proof.
  unfold ocean_box_data, values_where, col.
  set (labels := pd.unique (map (fun r : HousingRow => ocean_proximity r) (rows view))).
  set (group := fun c : label =>
                  filter (fun r : HousingRow => label_equals (ocean_proximity r) c)
                         (rows view)).
  assert (Hdata : map (fun c => (c, map (fun r : HousingRow => median_house_value r)
                                     (pd.boolean_index (rows view)
                                        (map (fun r : HousingRow =>
                                                label_equals (ocean_proximity r) c)
                                             (rows view))))) labels
                  = map (fun c => (c, map (fun r : HousingRow => median_house_value r)
                                        (group c))) labels).
  { apply map_ext. intros c. rewrite boolean_index_map. reflexivity. }
  rewrite Hdata.
  assert (Hfst : map fst (map (fun c => (c, map (fun r : HousingRow => median_house_value r)
                                              (group c))) labels) = labels).
  { rewrite map_map. simpl. apply map_id. }
  split; [exact Hfst|]. split; [rewrite Hfst; apply unique_from_NoDup|]. split.
  - intros c g Hg. apply in_map_iff in Hg. destruct Hg as [c' [E Hc]].
    injection E as -> <-. split.
    + intros Hnil. apply map_eq_nil in Hnil.
      apply unique_from_sound in Hc. destruct Hc as [Hc _].
      apply in_map_iff in Hc. destruct Hc as [r [E Hr]].
      destruct c as [x|]; [|reflexivity]. exfalso.
      assert (Hin : In r (group (Some x))).
      { apply filter_In. split; [exact Hr|].
        apply label_equals_true. split; [exact E | rewrite E; discriminate]. }
      rewrite Hnil in Hin. destruct Hin.
    + intros ->. unfold group. rewrite filter_none; [reflexivity|].
      intros r _. destruct (ocean_proximity r); reflexivity.
  - rewrite map_map. simpl.
    rewrite <- (map_map group (map (fun r : HousingRow => median_house_value r))).
    rewrite <- concat_map. apply Permutation_map.
    assert (Hsame : map group labels
                    = map (fun c => filter (fun r : HousingRow =>
                                              label_equals (ocean_proximity r) c)
                                           (filter has_label (rows view))) labels).
    { apply map_ext. intros c. unfold group. rewrite filter_filter.
      apply filter_ext. intros r. unfold has_label.
      destruct (ocean_proximity r); reflexivity. }
    rewrite Hsame. apply group_by_keys_perm; [apply unique_from_NoDup|].
    intros r Hr. apply filter_In in Hr. destruct Hr as [Hr Hl]. split.
    + unfold has_label in Hl. destruct (ocean_proximity r); [discriminate | discriminate Hl].
    + apply unique_covers.
      apply (in_map (fun r : HousingRow => ocean_proximity r)), Hr.
Qed.

Example ocean_box_data_unlabelled :
  map (fun r : HousingRow => ocean_proximity r)
      (rows (filtered (full_extent (frame_of unlabelled_csv)) (frame_of unlabelled_csv)))
    = [Some "INLAND"%string; None] /\
  ocean_box_data (filtered (full_extent (frame_of unlabelled_csv))
                           (frame_of unlabelled_csv))
    = [(Some "INLAND"%string, [452600]); (None, [])].
Proof. split; vm_compute; reflexivity. Qed.

(** ** Age categories and latitude bins of a view *)

Section ViewFacts.

Lemma load_data_category (csv : list Row) (housing : DataFrame) (r : HousingRow) :
  load_data csv = Ok housing -> In r (rows housing) ->
  age_category r = age_category_of (housing_median_age r).
Proof.
  intros Hload Hin. destruct (load_data_ok _ _ Hload) as (_ & _ & Hrows).
  rewrite Hrows in Hin. apply in_map_iff in Hin. destruct Hin as [x [<- _]].
  reflexivity.
Qed.

Lemma load_data_five_bins (csv : list Row) (housing : DataFrame) :
  load_data csv = Ok housing -> length (lat_bin_categories housing) = 5%nat.
Proof.
  intros Hload. destruct (load_data_ok _ _ Hload) as (Hedges & _ & _).
  apply nbins_to_bins_length in Hedges. simpl in Hedges.
  unfold lat_bin_categories. rewrite intervals_length, Hedges. reflexivity.
Qed.

Lemma mean_nil_isna (s : list float) : s = [] -> isna (pd.mean s) = true.
Proof. intros ->. reflexivity. Qed.

End ViewFacts.

(** Tab 11: on a view of a loaded frame the "New" group holds the house
    values of the records younger than 20, the "Old" group those of all
    other records (a missing age included), both in view order; together
    they hold every record of the view exactly once. *)
Theorem age_box_data_partitions
    (csv : list Row) (housing : DataFrame) (c : Criteria) :
  load_data csv = Ok housing ->
  age_box_data (filtered c housing)
  = [ ("New (<20)"%string,
       map (fun r : HousingRow => median_house_value r)
           (filter (fun r : HousingRow => housing_median_age r <? 20)
                   (rows (filtered c housing))));
      ("Old (>=20)"%string,
       map (fun r : HousingRow => median_house_value r)
           (filter (fun r : HousingRow => negb (housing_median_age r <? 20))
                   (rows (filtered c housing)))) ] /\
  Permutation (concat (map snd (age_box_data (filtered c housing))))
              (col median_house_value (filtered c housing)).
Proof.
  intros Hload.
  assert (Hcat : forall r, In r (rows (filtered c housing)) ->
                   age_category r = age_category_of (housing_median_age r)).
  { intros r Hr. apply filtered_conjunction_rows in Hr.
    apply (load_data_category _ _ _ Hload), Hr. }
  assert (E : age_box_data (filtered c housing)
    = [ ("New (<20)"%string,
         map (fun r : HousingRow => median_house_value r)
             (filter (fun r : HousingRow => housing_median_age r <? 20)
                     (rows (filtered c housing))));
        ("Old (>=20)"%string,
         map (fun r : HousingRow => median_house_value r)
             (filter (fun r : HousingRow => negb (housing_median_age r <? 20))
                     (rows (filtered c housing)))) ]).
  { unfold age_box_data, age_cats, values_where. simpl map.
    rewrite !boolean_index_map.
    rewrite (filter_ext_in
               (fun r : HousingRow => String.eqb (age_category r) "New (<20)")
               (fun r : HousingRow => housing_median_age r <? 20))
      by (intros r Hr; rewrite (Hcat r Hr); unfold age_category_of;
          destruct (housing_median_age r <? 20); reflexivity).
    rewrite (filter_ext_in
               (fun r : HousingRow => String.eqb (age_category r) "Old (>=20)")
               (fun r : HousingRow => negb (housing_median_age r <? 20)))
      by (intros r Hr; rewrite (Hcat r Hr); unfold age_category_of;
          destruct (housing_median_age r <? 20); reflexivity).
    reflexivity. }
  split; [exact E|].
  rewrite E. simpl. rewrite app_nil_r, <- map_app. unfold col.
  apply Permutation_map, filter_split_perm.
Qed.

Lemma age_box_data_partitions_witness :
  age_box_data (filtered capped_criteria (frame_of scenario_csv))
  = [ ("New (<20)"%string, [100000]); ("Old (>=20)"%string, [300000]) ].
Proof.
  assert (L : load_data scenario_csv = Ok (frame_of scenario_csv))
    by (vm_compute; reflexivity).
  destruct (age_box_data_partitions scenario_csv (frame_of scenario_csv)
              capped_criteria L) as [E _].
  rewrite E. vm_compute. reflexivity.
Defined.

(** Tab 5: on every view of a loaded frame the bar chart gets five
    entries, for bins 0 to 4 in order, whether or not a bin has records;
    a bin without records in the view reports NaN, not zero.  The bins
    are those of the whole file: filtering does not recompute them. *)
Theorem lat_value_five_bins (csv : list Row) (housing : DataFrame) (c : Criteria) :
  load_data csv = Ok housing ->
  lat_bin_categories (filtered c housing) = lat_bin_categories housing /\
  map fst (lat_value (filtered c housing)) = [0; 1; 2; 3; 4]%nat /\
  forall i m,
    In (i, m) (lat_value (filtered c housing)) ->
    (forall r, In r (rows (filtered c housing)) -> lat_bin r <> Some i) ->
    isna m = true.
Proof.
  intros Hload. split; [reflexivity|].
  unfold lat_value.
  change (lat_bin_categories (filtered c housing)) with (lat_bin_categories housing).
  rewrite (load_data_five_bins _ _ Hload). split; [reflexivity|].
  intros i m Hin Hnone. apply in_map_iff in Hin. destruct Hin as [j [E _]].
  injection E as -> <-. apply mean_nil_isna.
  rewrite filter_none; [reflexivity|].
  intros r Hr. unfold has_code. specialize (Hnone r Hr).
  destruct (lat_bin r) as [k|]; [|reflexivity].
  destruct (Nat.eqb_spec i k) as [->|]; [contradiction | reflexivity].
Qed.

Lemma lat_value_five_bins_witness :
  lat_value (filtered capped_criteria (frame_of scenario_csv))
  = [(0%nat, 100000); (1%nat, nan); (2%nat, nan); (3%nat, nan); (4%nat, 300000)] /\
  map fst (lat_value (filtered capped_criteria (frame_of scenario_csv)))
  = [0; 1; 2; 3; 4]%nat.
Proof.
  assert (L : load_data scenario_csv = Ok (frame_of scenario_csv))
    by (vm_compute; reflexivity).
  destruct (lat_value_five_bins scenario_csv (frame_of scenario_csv)
              capped_criteria L) as (_ & E & _).
  split; [vm_compute; reflexivity | exact E].
Defined.

(** The two age columns agree: a record in one of the first three age
    bins, up to (10, 15], is "New", and a record in a bin from (20, 25]
    on is "Old".  Only the bin (15, 20] holds both kinds, since age 20
    itself is "Old". *)
Theorem age_bin_agrees_with_category
    (csv : list Row) (housing : DataFrame) (r : HousingRow) (i : nat) :
  load_data csv = Ok housing -> In r (rows housing) -> age_bin r = Some i ->
  ((i <= 2)%nat -> age_category r = "New (<20)"%string) /\
  ((4 <= i)%nat -> age_category r = "Old (>=20)"%string).
Proof.
  intros Hload Hr Hbin.
  rewrite (load_data_category _ _ _ Hload Hr).
  destruct (load_data_row _ _ _ Hload Hr) as (_ & _ & _ & _ & Hage).
  rewrite Hage in Hbin. apply age_code_iff in Hbin.
  destruct Hbin as (Hi & Hlo & Hhi). unfold age_category_of. split.
  - intros Hsmall.
    assert (Hedge : (float_of_nat (5 * (i + 1)) <? 20) = true)
      by (do 3 (destruct i as [|i]; [vm_compute; reflexivity|]); lia).
    rewrite (leb_ltb_trans _ _ _ Hhi Hedge). reflexivity.
  - intros Hbig.
    assert (Hedge : (20 <=? float_of_nat (5 * i)) = true).
    { do 4 (destruct i as [|i]; [lia|]).
      do 6 (destruct i as [|i]; [vm_compute; reflexivity|]). lia. }
    pose proof (leb_ltb_trans _ _ _ Hedge Hlo) as H20.
    rewrite (leb_not_ltb _ _ (ltb_leb _ _ H20)). reflexivity.
Qed.

Lemma age_bin_agrees_with_category_witness :
  load_data scenario_csv = Ok (frame_of scenario_csv) /\
  In no_household_row (rows (frame_of scenario_csv)) /\
  age_bin no_household_row = Some 9%nat /\
  age_category no_household_row = "Old (>=20)"%string.
Proof.
  assert (L : load_data scenario_csv = Ok (frame_of scenario_csv))
    by (vm_compute; reflexivity).
  assert (I : In no_household_row (rows (frame_of scenario_csv)))
    by (vm_compute; right; left; reflexivity).
  split; [exact L|]. split; [exact I|]. split; [reflexivity|].
  apply (age_bin_agrees_with_category scenario_csv (frame_of scenario_csv)
           no_household_row 9 L I eq_refl). lia.
Defined.

(** ** Loading: when [load_data] raises *)

Section LoadErrors.

Lemma infinite_cell_extreme (m x M : float) :
  is_infinity x = true -> (m <=? x) = true -> (x <=? M) = true ->
  is_infinity m || is_infinity M = true.
Proof. to_spec. sf_crush. Qed.

Lemma infinite_notna (x : float) : is_infinity x = true -> isna x = false.
Proof. to_spec. sf_crush. Qed.

Lemma min_all_missing (s : list float) :
  (forall x, In x s -> isna x = true) -> pd.min s = nan /\ pd.max s = nan.
Proof.
  intros H. unfold pd.min, pd.max. rewrite filter_none; [split; reflexivity|].
  intros x Hx. unfold notna. rewrite (H x Hx). reflexivity.
Qed.

Lemma nbins_infinite (x : list float) (v : float) :
  In v x -> is_infinity v = true ->
  pd.nbins_to_bins x 5
  = Raise (ValueError "cannot specify integer `bins` when input data contains infinity").
Proof.
  intros Hin Hinf. unfold pd.nbins_to_bins. simpl (5 <? 1)%nat. cbv iota.
  destruct x as [|x0 x]; [destruct Hin|].
  pose proof (infinite_notna _ Hinf) as Hna.
  rewrite (infinite_cell_extreme _ _ _ Hinf (min_le _ _ Hin Hna) (max_ge _ _ Hin Hna)).
  reflexivity.
Qed.

Lemma cut_all_missing (x : list float) :
  x <> [] -> (forall v, In v x -> isna v = true) ->
  pd.cut_nbins x 5 = Raise (ValueError "Bin edges must be unique").
Proof.
  intros Hne Hall. destruct (min_all_missing x Hall) as [Hmin Hmax].
  unfold pd.cut_nbins, pd.nbins_to_bins. simpl (5 <? 1)%nat. cbv iota.
  destruct x as [|x0 x]; [contradiction|].
  rewrite Hmin, Hmax. generalize (x0 :: x). intros l.
  vm_compute. reflexivity.
Qed.

End LoadErrors.

(** [load_data] raises [ValueError], and the dashboard stops before
    drawing anything, when the file has no record, when some latitude is
    infinite, or when no record has a latitude. *)
Theorem load_data_raises (csv : list Row) :
  csv = [] \/
  (exists r, In r csv /\ is_infinity (latitude r) = true) \/
  (forall r, In r csv -> isna (latitude r) = true) ->
  exists msg, load_data csv = Raise (ValueError msg).
Proof.
  intros [->|[[r [Hr Hinf]]|Hall]].
  - eexists. vm_compute. reflexivity.
  - eexists. unfold load_data, pd.cut_nbins.
    rewrite (nbins_infinite _ (latitude r)); [reflexivity | | exact Hinf].
    apply in_map, Hr.
  - destruct csv as [|r0 csv]; [eexists; vm_compute; reflexivity|].
    eexists. unfold load_data. rewrite cut_all_missing; [reflexivity | discriminate |].
    intros v Hv. apply in_map_iff in Hv. destruct Hv as [r [<- Hr]]. apply Hall, Hr.
Qed.

Lemma load_data_raises_witness :
  exists msg,
    load_data [record infinity 10 4 1 10 2 3 100000 "INLAND";
               record 34 10 4 1 10 2 3 100000 "INLAND"]
    = Raise (ValueError msg).
Proof.
  apply load_data_raises. right. left.
  exists (record infinity 10 4 1 10 2 3 100000 "INLAND").
  split; [left; reflexivity | vm_compute; reflexivity].
Defined.

(** ** Slider bounds and the initial view *)

Section SliderFacts.

Lemma py_int_missing (x : float) :
  isna x = true -> py_int x = Raise (ValueError "cannot convert float NaN to integer").
Proof.
  unfold py_int, isna, is_nan. rewrite eqb_spec.
  generalize (Prim2SF x). intros s. sf_crush.
Qed.

Lemma py_int_value_error (x : float) (msg : string) :
  py_int x = Raise (ValueError msg) -> isna x = true.
Proof.
  unfold py_int, isna, is_nan. rewrite eqb_spec.
  generalize (Prim2SF x). intros s. destruct s; simpl; try discriminate. reflexivity.
Qed.

Lemma fold_min_in (xs : list float) : forall x0,
  In (fold_left (fun acc y => if y <? acc then y else acc) xs x0) (x0 :: xs).
Proof.
  induction xs as [|y ys IH]; intros x0; simpl; [left; reflexivity|].
  destruct (IH (if y <? x0 then y else x0)) as [E|H].
  - rewrite <- E. destruct (y <? x0); auto.
  - right. right. exact H.
Qed.

Lemma fold_max_in (xs : list float) : forall x0,
  In (fold_left (fun acc y => if acc <? y then y else acc) xs x0) (x0 :: xs).
Proof.
  induction xs as [|y ys IH]; intros x0; simpl; [left; reflexivity|].
  destruct (IH (if x0 <? y then y else x0)) as [E|H].
  - rewrite <- E. destruct (x0 <? y); auto.
  - right. right. exact H.
Qed.

(** With a present cell, the observed minimum and maximum are present
    cells of the column. *)
Lemma min_max_attained (s : list float) (x : float) :
  In x s -> isna x = false ->
  (In (pd.min s) s /\ isna (pd.min s) = false) /\
  (In (pd.max s) s /\ isna (pd.max s) = false).
Proof.
  intros Hin Hx.
  assert (Hf : In x (filter notna s))
    by (apply filter_In; split; [exact Hin | apply notna_false_iff, Hx]).
  unfold pd.min, pd.max. destruct (filter notna s) as [|x0 xs] eqn:E; [destruct Hf|].
  pose proof (fold_min_in xs x0) as Hmin. pose proof (fold_max_in xs x0) as Hmax.
  rewrite <- E in Hmin, Hmax. apply filter_In in Hmin. apply filter_In in Hmax.
  destruct Hmin as [H1 H2]. destruct Hmax as [H3 H4].
  apply notna_false_iff in H2. apply notna_false_iff in H4. auto.
Qed.

Lemma min_missing_iff (s : list float) :
  isna (pd.min s) = true <-> (forall x, In x s -> isna x = true).
Proof.
  split.
  - intros H x Hx. destruct (isna x) eqn:E; [reflexivity|].
    destruct (min_max_attained s x Hx E) as [[_ H'] _]. congruence.
  - intros H. destruct (min_all_missing s H) as [-> _]. reflexivity.
Qed.

Lemma max_missing_iff (s : list float) :
  isna (pd.max s) = true <-> (forall x, In x s -> isna x = true).
Proof.
  split.
  - intros H x Hx. destruct (isna x) eqn:E; [reflexivity|].
    destruct (min_max_attained s x Hx E) as [_ [_ H']]. congruence.
  - intros H. destruct (min_all_missing s H) as [_ ->]. reflexivity.
Qed.

Lemma in_col {A : Type} (f : HousingRow -> A) (housing : DataFrame) (r : HousingRow) :
  In r (rows housing) -> In (f r) (col f housing).
Proof. intros H. unfold col. apply in_map, H. Qed.

End SliderFacts.

(** The sidebar cannot be built when no record has a housing age: the
    [int(...)] of line 27 raises [ValueError] exactly then. *)
Theorem default_criteria_needs_an_age (housing : DataFrame) :
  (forall r, In r (rows housing) -> isna (housing_median_age r) = true) <->
  default_criteria housing
  = Raise (ValueError "cannot convert float NaN to integer").
Proof.
  unfold default_criteria, age_min, age_max. split.
  - intros Hall.
    assert (Hcol : forall x, In x (col (fun r : HousingRow => housing_median_age r) housing)
                             -> isna x = true).
    { intros x Hx. unfold col in Hx. apply in_map_iff in Hx.
      destruct Hx as [r [<- Hr]]. apply Hall, Hr. }
    rewrite (py_int_missing _ (proj2 (min_missing_iff _) Hcol)). reflexivity.
  - intros Hraise r Hr.
    destruct (py_int (pd.min (col (fun r : HousingRow => housing_median_age r) housing)))
      as [lo|e] eqn:Elo; simpl in Hraise.
    + destruct (py_int (pd.max (col (fun r : HousingRow => housing_median_age r) housing)))
        as [hi|e] eqn:Ehi; simpl in Hraise; [discriminate|].
      injection Hraise as ->. apply py_int_value_error in Ehi.
      apply (proj1 (max_missing_iff _) Ehi).
      apply (in_col (fun r : HousingRow => housing_median_age r)), Hr.
    + injection Hraise as ->. apply py_int_value_error in Elo.
      apply (proj1 (min_missing_iff _) Elo).
      apply (in_col (fun r : HousingRow => housing_median_age r)), Hr.
Qed.

(** When some record has an income, the two ends of the income slider
    are incomes of the file and the lower end is not above the upper
    one. *)
Theorem income_slider_bounds_attained (housing : DataFrame) :
  (exists r, In r (rows housing) /\ isna (median_income r) = false) ->
  (exists r, In r (rows housing) /\ median_income r = inc_min housing) /\
  (exists r, In r (rows housing) /\ median_income r = inc_max housing) /\
  (inc_min housing <=? inc_max housing) = true.
Proof.
  intros [r [Hr Hna]]. unfold inc_min, inc_max.
  pose proof (in_col (fun r : HousingRow => median_income r) housing r Hr) as Hin.
  destruct (min_max_attained _ _ Hin Hna) as [[Hmin Hmin'] [Hmax _]].
  unfold col in Hmin, Hmax. apply in_map_iff in Hmin. apply in_map_iff in Hmax.
  destruct Hmin as [r1 [E1 H1]]. destruct Hmax as [r2 [E2 H2]].
  split; [exists r1; auto|]. split; [exists r2; auto|].
  apply max_ge; [|exact Hmin'].
  unfold col. rewrite <- E1.
  apply (in_map (fun r : HousingRow => median_income r)), H1.
Qed.

Lemma income_slider_bounds_attained_witness :
  inc_min (frame_of clean_csv) = 7 /\ inc_max (frame_of clean_csv) = 8 /\
  (inc_min (frame_of clean_csv) <=? inc_max (frame_of clean_csv)) = true.
Proof.
  assert (H : exists r, In r (rows (frame_of clean_csv)) /\ isna (median_income r) = false).
  { exists (nth 0 (rows (frame_of clean_csv)) no_household_row).
    split; vm_compute; auto. }
  destruct (income_slider_bounds_attained (frame_of clean_csv) H) as (_ & _ & Hle).
  split; [vm_compute; reflexivity|]. split; [vm_compute; reflexivity | exact Hle].
Defined.

(** The rooms-per-household slider is well formed (lower end not above
    upper end) exactly when the smallest ratio of the file is at most
    10: on a file whose every ratio exceeds 10 the lower end is above
    the upper end. *)
Theorem rph_slider_order (housing : DataFrame) :
  (exists r, In r (rows housing) /\ isna (rooms_per_household r) = false) ->
  (rph_min housing <=? rph_max housing) = (rph_min housing <=? 10).
Proof.
  intros [r [Hr Hna]]. unfold rph_min, rph_max.
  pose proof (in_col rooms_per_household housing r Hr) as Hin.
  destruct (pd.max (col rooms_per_household housing) <? 10) eqn:E; [|reflexivity].
  pose proof (leb_trans _ _ _ (min_le _ _ Hin Hna) (max_ge _ _ Hin Hna)) as Hle.
  rewrite Hle. symmetry. apply ltb_leb. eapply leb_ltb_trans; eassumption.
Qed.

Lemma rph_slider_order_witness :
  (rph_min (frame_of scenario_csv) <=? rph_max (frame_of scenario_csv)) = true.
Proof.
  rewrite (rph_slider_order (frame_of scenario_csv)).
  - vm_compute. reflexivity.
  - exists no_household_row. split; vm_compute; auto.
Defined.

(** ** The row-count card *)

Section CountCard.

Lemma commas_rev_strip : forall (n : nat) (l : list ascii),
  (length l <= n)%nat -> filter not_comma (fmt.commas_rev l) = filter not_comma l.
Proof.
  induction n as [|n IH]; intros l Hl.
  - destruct l; [reflexivity | simpl in Hl; lia].
  - destruct l as [|a [|b [|c [|d rest]]]]; try reflexivity.
    change (fmt.commas_rev (a :: b :: c :: d :: rest))
      with ([a; b; c; ","%char] ++ fmt.commas_rev (d :: rest)).
    change (a :: b :: c :: d :: rest) with ([a; b; c] ++ d :: rest).
    rewrite !filter_app, IH by (simpl in *; lia).
    apply (f_equal (fun l => l ++ filter not_comma (d :: rest))).
    simpl. destruct (not_comma a), (not_comma b), (not_comma c); reflexivity.
Qed.

Lemma uint_string_no_comma (d : Decimal.uint) :
  filter not_comma (list_ascii_of_string (NilEmpty.string_of_uint d))
  = list_ascii_of_string (NilEmpty.string_of_uint d).
Proof. induction d; simpl; rewrite ?IHd; reflexivity. Qed.

Lemma digits_no_comma (z : Z) :
  filter not_comma (list_ascii_of_string (fmt.digits z))
  = list_ascii_of_string (fmt.digits z).
Proof.
  unfold fmt.digits, NilZero.string_of_uint.
  destruct (N.to_uint (Z.to_N z)); try reflexivity; apply uint_string_no_comma.
Qed.

Lemma strip_group (z : Z) : strip_commas (fmt.group (fmt.digits z)) = fmt.digits z.
Proof.
  unfold strip_commas, fmt.group.
  rewrite list_ascii_of_string_of_list_ascii.
  rewrite filter_rev, (commas_rev_strip _ _ (le_n _)), <- filter_rev, rev_involutive.
  rewrite digits_no_comma. apply string_of_list_ascii_of_string.
Qed.

Lemma to_uint_not_nil (n : N) : N.to_uint n <> Decimal.Nil.
Proof.
  intros E. pose proof (DecimalN.Unsigned.of_to n) as H. rewrite E in H.
  simpl in H. subst n. discriminate E.
Qed.

End CountCard.

(** The third card shows the number of records of the view: taking the
    thousands separators out of its text and reading the digits gives
    back that number. *)
Theorem k3_metric_reads_back (view : DataFrame) :
  strip_commas (k3_metric view) = fmt.digits (Z.of_nat (length (rows view))) /\
  parse_count (k3_metric view) = Some (N.of_nat (length (rows view))).
Proof.
  unfold parse_count, k3_metric, fmt.int_comma. rewrite strip_group.
  split; [reflexivity|].
  unfold fmt.digits. rewrite NilZero.usu by apply to_uint_not_nil.
  simpl. rewrite DecimalN.Unsigned.of_to. f_equal. lia.
Qed.

(** ** Narrowed views and missing values *)

(** A view is unchanged by a second filter whose criteria are those of
    the first with one criterion widened: widening can only be done on
    the whole frame, never on a view. *)
Theorem filtered_absorbs_wider (c c' : Criteria) (housing : DataFrame) :
  widens c c' -> filtered c' (filtered c housing) = filtered c housing.
Proof.
  intros W. rewrite !filtered_frame. simpl. f_equal.
  apply filter_all. intros r Hr. apply filter_In in Hr.
  apply (keeps_widens c c' r W), Hr.
Qed.

Lemma filtered_absorbs_wider_witness :
  widens from_age_20 from_age_10 /\
  filtered from_age_10 (filtered from_age_20 (frame_of clean_csv))
  = filtered from_age_20 (frame_of clean_csv).
Proof.
  assert (W : widens from_age_20 from_age_10)
    by (apply widen_age_min; vm_compute; reflexivity).
  split; [exact W | exact (filtered_absorbs_wider _ _ (frame_of clean_csv) W)].
Defined.

(** A view in which every house value is missing shows "$nan" on the
    first card, however many records it holds. *)
Theorem kpi_all_missing (view : DataFrame) :
  (forall r, In r (rows view) -> isna (median_house_value r) = true) ->
  k1_metric view = "$nan"%string.
Proof.
  intros H. unfold k1_metric, pd.mean, col.
  rewrite filter_none; [reflexivity|].
  intros x Hx. apply in_map_iff in Hx. destruct Hx as [r [<- Hr]].
  unfold notna. rewrite (H r Hr). reflexivity.
Qed.

Lemma kpi_all_missing_witness :
  length (rows (filtered capped_criteria (frame_of unpriced_csv))) = 2%nat /\
  k1_metric (filtered capped_criteria (frame_of unpriced_csv)) = "$nan"%string.
Proof.
  split; [vm_compute; reflexivity|].
  apply (kpi_all_missing (filtered capped_criteria (frame_of unpriced_csv))).
  intros r Hr. vm_compute in Hr. destruct Hr as [<-|[<-|[]]]; reflexivity.
Defined.
